(** * MMC5603 / MMC5613 magnetometer driver (adafruit_mmc56x3.py)

    A shallow embedding of the driver class [MMC5603] and the properties of
    its measurement protocol.  Python integers are [Z]; the bytes of the
    measurement buffer are [Z] values in 0..255; Python floats are IEEE
    binary64 numbers ([PrimFloat.float]), with the rationals [Q] as the
    exact-arithmetic reading of the same expressions.  The driver talks to
    the chip through the register accessors of the bus libraries, which are
    taken as an interface ([Transport]); every access is recorded in a trace
    so that the protocol itself can be stated. *)

From Stdlib Require Import ZArith String List Bool Lia QArith Floats Uint63.
From Stdlib Require Import Qabs.
Import ListNotations.
Set Warnings "-inexact-float,-abstract-large-number".
Local Open Scope Z_scope.

(** ** Register map (module constants, lines 39-48) *)

Definition _MMC5603_I2CADDR_DEFAULT : Z := 0x30.
Definition _MMC5603_CHIP_ID : Z := 0x10.

Definition _MMC5603_OUT_X_L : Z := 0x00.
Definition _MMC5603_OUT_TEMP : Z := 0x09.
Definition _MMC5603_PRODUCT_ID : Z := 0x39.
Definition _MMC5603_STATUS_REG : Z := 0x18.
Definition _MMC5603_CTRL_REG0 : Z := 0x1B.
Definition _MMC5603_CTRL_REG1 : Z := 0x1C.
Definition _MMC5603_CTRL_REG2 : Z := 0x1D.

(** ** Numbers

    [x *= 0.00625] and [t *= 0.8] turn a Python int into a float.  The
    arithmetic the driver needs is collected in one interface with two
    implementations: [binary64], what the interpreter computes, and
    [exact], the same expressions over the rationals. *)

Class Real (R : Type) := {
  of_int : Z -> R;
  real_mul : R -> R -> R;
  real_sub : R -> R -> R;
  lit_0_8 : R;
  lit_0_00625 : R
}.

(** int -> float conversion; exact for |z| < 2^53, which covers every
    integer the driver converts. *)
Definition float_of_int (z : Z) : float :=
  if z <? 0 then PrimFloat.opp (PrimFloat.of_uint63 (Uint63.of_Z (- z)))
  else PrimFloat.of_uint63 (Uint63.of_Z z).

#[export] Instance binary64 : Real float := {
  of_int := float_of_int;
  real_mul := PrimFloat.mul;
  real_sub := PrimFloat.sub;
  lit_0_8 := 0.8%float;
  lit_0_00625 := 0.00625%float
}.

#[export] Instance exact : Real Q := {
  of_int := inject_Z;
  real_mul := Qmult;
  real_sub := Qminus;
  lit_0_8 := (8 # 10)%Q;
  lit_0_00625 := (625 # 100000)%Q
}.

(** ** Exceptions and name resolution *)

Inductive exn : Type :=
| RuntimeError (msg : string)
| AttributeError (msg : string)
| NameError (name : string)
| IndexError (msg : string).

(** Names bound at module level: the imports (lines 29-34), the assignments
    (lines 36-48) and the class statement (line 50). *)
Definition module_globals : list string :=
  [ "time"; "const"; "i2c_device"; "ROUnaryStruct"; "UnaryStruct"; "Struct";
    "RWBits"; "RWBit"; "__version__"; "__repo__";
    "_MMC5603_I2CADDR_DEFAULT"; "_MMC5603_CHIP_ID"; "_MMC5603_OUT_X_L";
    "_MMC5603_OUT_TEMP"; "_MMC5603_PRODUCT_ID"; "_MMC5603_STATUS_REG";
    "_MMC5603_CTRL_REG0"; "_MMC5603_CTRL_REG1"; "_MMC5603_CTRL_REG2";
    "MMC5603" ]%string.

(** The interpreter's built-in namespace, searched after the module's. *)
Definition builtins : list string :=
  [ "abs"; "all"; "any"; "bin"; "bool"; "bytearray"; "bytes"; "callable";
    "chr"; "classmethod"; "dict"; "dir"; "divmod"; "enumerate"; "eval";
    "exec"; "filter"; "float"; "frozenset"; "getattr"; "globals"; "hasattr";
    "hash"; "hex"; "id"; "input"; "int"; "isinstance"; "issubclass"; "iter";
    "len"; "list"; "locals"; "map"; "max"; "memoryview"; "min"; "next";
    "object"; "oct"; "open"; "ord"; "pow"; "print"; "property"; "range";
    "repr"; "reversed"; "round"; "set"; "setattr"; "slice"; "sorted";
    "staticmethod"; "str"; "sum"; "super"; "tuple"; "type"; "zip";
    "None"; "True"; "False"; "NotImplemented"; "Ellipsis";
    "BaseException"; "Exception"; "ArithmeticError"; "AssertionError";
    "AttributeError"; "EOFError"; "ImportError"; "IndexError"; "KeyError";
    "KeyboardInterrupt"; "LookupError"; "MemoryError"; "NameError";
    "NotImplementedError"; "OSError"; "OverflowError"; "RuntimeError";
    "StopIteration"; "SyntaxError"; "SystemExit"; "TypeError"; "ValueError";
    "ZeroDivisionError" ]%string.

Definition name_defined (n : string) : bool :=
  existsb (String.eqb n) module_globals || existsb (String.eqb n) builtins.

(** ** The bus

    The register accessors ([ROUnaryStruct], [UnaryStruct], [RWBit]) and
    [I2CDevice.write_then_readinto] belong to the bus libraries, not to the
    driver.  A device [D] answers them; [elapse] is what the device does
    while the caller sleeps.  Every access is answered: a transaction the
    bus library gives up on (it raises [OSError], which the driver passes
    on unchanged) is not part of this interface, so what is proved of a call
    is proved of its run on a bus that answers, and of any call that
    returns. *)

Class Transport (D : Type) := {
  read_register : Z -> D -> Z * D;
  write_register : Z -> Z -> D -> D;
  write_then_readinto : list Z -> nat -> D -> list Z * D;
  elapse : Z -> D -> D
}.

(** What the driver does to the outside world, in order. [Sleep] is in
    milliseconds: [time.sleep(0.020)] is [Sleep 20]. *)
Inductive event : Type :=
| RegRead (addr value : Z)
| RegWrite (addr value : Z)
| WriteThenReadInto (out : list Z) (n : nat) (data : list Z)
| Sleep (ms : Z).

(** The instance attributes of an [MMC5603] object.  [_buffer] is [None]
    until line 94 has run. *)
Record MMC5603 : Type := {
  i2c_device : Z;
  _buffer : option (list Z)
}.

(** [RWBit.__get__]: the register byte masked with [1 << bit]. *)
Definition bit_set (v bit : Z) : bool :=
  negb (Z.land v (Z.shiftl 1 bit) =? 0).

(** A read into a bytearray fills it in place: its length never changes. *)
Definition fill (old data : list Z) : list Z :=
  firstn (length old) data ++ skipn (length data) old.

(** The trace of a poll loop that read the status values [vs]. *)
Fixpoint poll_events (vs : list Z) : list event :=
  match vs with
  | [] => []
  | [v] => [RegRead _MMC5603_STATUS_REG v]
  | v :: rest => RegRead _MMC5603_STATUS_REG v :: Sleep 5 :: poll_events rest
  end.

Definition is_byte (b : Z) : Prop := 0 <= b < 256.

Section Driver.

Context {D : Type} {T : Transport D}.

Record world : Type := {
  bus : D;
  clock : Z;
  trace : list event;
  self : MMC5603
}.

(** A call returns, raises, or is still polling when the fuel is spent. *)
Inductive result (A : Type) : Type :=
| Returns (a : A) (w : world)
| Raises (e : exn) (w : world)
| Hangs.
Arguments Returns {A} a w.
Arguments Raises {A} e w.
Arguments Hangs {A}.

Definition M (A : Type) : Type := world -> result A.

Definition ret {A} (a : A) : M A := fun w => Returns a w.

Definition bind {A B} (c : M A) (k : A -> M B) : M B :=
  fun w =>
    match c w with
    | Returns a w' => k a w'
    | Raises e w' => Raises e w'
    | Hangs => Hangs
    end.

Definition raise {A} (e : exn) : M A := fun w => Raises e w.

Notation "x <- c ;; k" := (bind c (fun x => k))
  (at level 61, c at next level, right associativity).
Notation "c ;; k" := (bind c (fun _ => k))
  (at level 61, right associativity).

(** *** Primitive actions *)

Definition get_register (addr : Z) : M Z :=
  fun w =>
    let (v, d) := read_register addr (bus w) in
    Returns v {| bus := d; clock := clock w;
                 trace := trace w ++ [RegRead addr v]; self := self w |}.

Definition set_register (addr v : Z) : M unit :=
  fun w =>
    Returns tt {| bus := write_register addr v (bus w); clock := clock w;
                  trace := trace w ++ [RegWrite addr v]; self := self w |}.

Definition get_bit (addr bit : Z) : M bool :=
  v <- get_register addr ;; ret (bit_set v bit).

Definition time_sleep (ms : Z) : M unit :=
  fun w =>
    Returns tt {| bus := elapse ms (bus w); clock := clock w + ms;
                  trace := trace w ++ [Sleep ms]; self := self w |}.

Definition get_buffer : M (list Z) :=
  fun w =>
    match _buffer (self w) with
    | Some b => Returns b w
    | None => Raises (AttributeError "'MMC5603' object has no attribute '_buffer'") w
    end.

Definition put_buffer (b : list Z) : M unit :=
  fun w =>
    Returns tt {| bus := bus w; clock := clock w; trace := trace w;
                  self := {| i2c_device := i2c_device (self w);
                             _buffer := Some b |} |}.

(** [self._buffer[i]] *)
Definition buffer_get (i : nat) : M Z :=
  b <- get_buffer ;;
  match nth_error b i with
  | Some v => ret v
  | None => raise (IndexError "bytearray index out of range")
  end.

(** [self._buffer[i] = v] *)
Definition buffer_set (i : nat) (v : Z) : M unit :=
  b <- get_buffer ;;
  if (i <? length b)%nat
  then put_buffer (firstn i b ++ v :: skipn (S i) b)
  else raise (IndexError "bytearray index out of range").

(** [i2c.write_then_readinto(self._buffer, self._buffer, out_end=1)] *)
Definition buffer_write_then_readinto (out_end : nat) : M unit :=
  b <- get_buffer ;;
  fun w =>
    let out := firstn out_end b in
    let n := length b in
    let (data, d) := write_then_readinto out n (bus w) in
    Returns tt {| bus := d; clock := clock w;
                  trace := trace w ++ [WriteThenReadInto out n data];
                  self := {| i2c_device := i2c_device (self w);
                             _buffer := Some (fill b data) |} |}.

(** [while not done: time.sleep(0.005)] *)
Fixpoint wait_until (fuel : nat) (done : M bool) : M unit :=
  match fuel with
  | O => fun _ => Hangs
  | S fuel' =>
      b <- done ;;
      if b then ret tt else time_sleep 5 ;; wait_until fuel' done
  end.

(** *** Register accessors of the class (lines 69-78) *)

Definition _chip_id : M Z := get_register _MMC5603_PRODUCT_ID.
Definition set__ctrl0_reg (v : Z) : M unit := set_register _MMC5603_CTRL_REG0 v.
Definition set__ctrl1_reg (v : Z) : M unit := set_register _MMC5603_CTRL_REG1 v.
Definition _meas_m_done : M bool := get_bit _MMC5603_STATUS_REG 6.
Definition _meas_t_done : M bool := get_bit _MMC5603_STATUS_REG 7.
Definition _raw_temp_data : M Z := get_register _MMC5603_OUT_TEMP.

(** *** Methods *)

(** [reset] (lines 103-106) *)
Definition reset : M unit :=
  set__ctrl1_reg 0x80 ;;
  time_sleep 20.

(** [__init__] (lines 87-94), run on the object under construction. *)
Definition __init__ : M unit :=
  id <- _chip_id ;;
  if negb (id =? _MMC5603_CHIP_ID)
  then raise (RuntimeError "Failed to find MMC5603 - check your wiring!")
  else
    reset ;;
    put_buffer (repeat 0 9).

(** [MMC5603(i2c_bus, address)]: a fresh object, then [__init__].  Line 89
    wraps bus and address in the bus library's [I2CDevice]; here [d] is the
    device that answers at [address]. *)
Definition new_MMC5603 (d : D) (address : Z) : result unit :=
  __init__ {| bus := d; clock := 0; trace := [];
              self := {| i2c_device := address; _buffer := None |} |}.

Section Readings.

Context {R : Type} {A : Real R}.

(** [temperature] (lines 108-118) *)
Definition temperature (fuel : nat) : M R :=
  set__ctrl0_reg 0x02 ;;
  wait_until fuel _meas_t_done ;;
  t <- _raw_temp_data ;;
  let t := real_mul (of_int t) lit_0_8 in
  let t := real_sub t (of_int 75) in
  ret t.

(** [magnetic] (lines 121-144) *)
Definition magnetic (fuel : nat) : M (R * R * R) :=
  set__ctrl0_reg 0x21 ;;
  wait_until fuel _meas_m_done ;;
  buffer_set 0 _MMC5603_OUT_X_L ;;
  buffer_write_then_readinto 1 ;;
  b0 <- buffer_get 0 ;; b1 <- buffer_get 1 ;; b6 <- buffer_get 6 ;;
  let x := Z.lor (Z.lor (Z.shiftl b0 12) (Z.shiftl b1 4)) (Z.shiftr b6 4) in
  b2 <- buffer_get 2 ;; b3 <- buffer_get 3 ;; b7 <- buffer_get 7 ;;
  let y := Z.lor (Z.lor (Z.shiftl b2 12) (Z.shiftl b3 4)) (Z.shiftr b7 4) in
  b4 <- buffer_get 4 ;; b5 <- buffer_get 5 ;; b8 <- buffer_get 8 ;;
  let z := Z.lor (Z.lor (Z.shiftl b4 12) (Z.shiftl b5 4)) (Z.shiftr b8 4) in
  let x := x - Z.shiftl 1 19 in
  let y := y - Z.shiftl 1 19 in
  let z := z - Z.shiftl 1 19 in
  let x := real_mul (of_int x) lit_0_00625 in
  let y := real_mul (of_int y) lit_0_00625 in
  let z := real_mul (of_int z) lit_0_00625 in
  ret (x, y, z).

End Readings.

(** *** Configuration properties (lines 146-193)

    The setters work on Python objects that are neither numbers nor bytes:
    the [value] handed in, classes, bound methods.  They are values of an
    open type [V]; attribute access, identity, calls, truth and attribute
    assignment on them are left open as well.  Only the lookup of a global
    name is fixed: the module's namespace, then the built-in one. *)

Section Configuration.

Variable V : Type.
Variable global_value : string -> V.
Variable py_float : float -> V.
Variable getattr : V -> string -> M V.
Variable py_is : V -> V -> bool.
Variable call : V -> list V -> M V.
Variable truth : V -> bool.
Variable setattr_self : string -> V -> M unit.

Definition load_global (n : string) : M V :=
  if name_defined n then ret (global_value n) else raise (NameError n).

(** [performance_mode.setter] (lines 175-180) *)
Definition set_performance_mode (value : V) : M unit :=
  cls <- load_global "PerformanceMode" ;;
  is_valid <- getattr cls "is_valid" ;;
  ok <- call is_valid [value] ;;
  if negb (truth ok)
  then raise (AttributeError "`performance_mode` must be a `PerformanceMode`")
  else
    setattr_self "_perf_mode" value ;;
    setattr_self "_z_perf_mode" value.

(** [if value is Rate.<rate>: self.performance_mode = PerformanceMode.<mode>] *)
Definition couple (value : V) (rate mode : string) : M unit :=
  cls <- load_global "Rate" ;;
  r <- getattr cls rate ;;
  if py_is value r
  then
    pm <- load_global "PerformanceMode" ;;
    m <- getattr pm mode ;;
    set_performance_mode m
  else ret tt.

(** [data_rate.setter] (lines 151-165) *)
Definition set_data_rate (value : V) : M unit :=
  couple value "RATE_155_HZ" "MODE_ULTRA" ;;
  couple value "RATE_300_HZ" "MODE_HIGH" ;;
  couple value "RATE_560_HZ" "MODE_MEDIUM" ;;
  couple value "RATE_1000_HZ" "MODE_LOW_POWER" ;;
  sleep <- load_global "sleep" ;;
  call sleep [py_float 0.010%float] ;;
  cls <- load_global "Rate" ;;
  is_valid <- getattr cls "is_valid" ;;
  ok <- call is_valid [value] ;;
  if negb (truth ok)
  then raise (AttributeError "`data_rate` must be a `Rate`")
  else setattr_self "_data_rate" value.

(** [operation_mode.setter] (lines 189-193) *)
Definition set_operation_mode (value : V) : M unit :=
  cls <- load_global "OperationMode" ;;
  is_valid <- getattr cls "is_valid" ;;
  ok <- call is_valid [value] ;;
  if negb (truth ok)
  then raise (AttributeError "operation mode must be a OperationMode")
  else setattr_self "_operation_mode" value.

End Configuration.

(** ** Describing a device

    [poll_run K d]: the status bytes seen by [K] successive polls of the
    status register, 5 ms apart, starting on device [d], and the device
    after the last of them. *)

Fixpoint poll_run (K : nat) (d : D) : list Z * D :=
  match K with
  | O => ([], d)
  | S k =>
      let (v, d1) := read_register _MMC5603_STATUS_REG d in
      match k with
      | O => ([v], d1)
      | S _ => let (vs, d2) := poll_run k (elapse 5 d1) in (v :: vs, d2)
      end
  end.

(** The device shows the done bit [bit] at the [K]th poll and at none
    before it. *)
Fixpoint done_at_poll (bit : Z) (K : nat) (d : D) : bool :=
  match K with
  | O => false
  | S k =>
      let (v, d1) := read_register _MMC5603_STATUS_REG d in
      if bit_set v bit
      then match k with O => true | S _ => false end
      else done_at_poll bit k (elapse 5 d1)
  end.

(** The object has been constructed: its buffer is the 9-byte bytearray. *)
Definition constructed (w : world) : Prop :=
  exists b, _buffer (self w) = Some b /\ length b = 9%nat.

End Driver.

Arguments world D : clear implicits.
Arguments result D A : clear implicits.
Arguments M D A : clear implicits.
Arguments Returns {D A} a w.
Arguments Raises {D A} e w.
Arguments Hangs {D A}.

(** ** A simulated chip

    A register file and a measurement that takes [latency] polls: a write
    to control register 0 starts it, and the status register shows both
    done bits from the [latency]th read on (at once when [latency] is 0). *)

Record sim : Type := {
  regs : Z -> Z;
  latency : nat;
  busy : nat
}.

Definition sim_read (addr : Z) (d : sim) : Z * sim :=
  if addr =? _MMC5603_STATUS_REG
  then match busy d with
       | O | S O =>
           (Z.lor (regs d addr) 0xC0,
            {| regs := regs d; latency := latency d; busy := 0 |})
       | S n =>
           (Z.land (regs d addr) 0x3F,
            {| regs := regs d; latency := latency d; busy := n |})
       end
  else (regs d addr, d).

Definition sim_write (addr v : Z) (d : sim) : sim :=
  if addr =? _MMC5603_CTRL_REG0
  then {| regs := regs d; latency := latency d; busy := latency d |}
  else d.

(** The register pointer is the byte written; reads auto-increment it. *)
Definition sim_write_then_readinto (out : list Z) (n : nat) (d : sim)
  : list Z * sim :=
  (map (fun i => regs d (hd 0 out + Z.of_nat i)) (seq 0 n), d).

#[export] Instance sim_transport : Transport sim := {
  read_register := sim_read;
  write_register := sim_write;
  write_then_readinto := sim_write_then_readinto;
  elapse := fun _ d => d
}.

(** A chip whose product-ID register holds [id], whose output registers
    0x00..0x08 hold [out] and whose temperature register holds [temp]. *)
Definition chip (id : Z) (out : list Z) (temp : Z) (K : nat) : sim :=
  {| regs := fun a =>
       if a =? _MMC5603_PRODUCT_ID then id
       else if a =? _MMC5603_OUT_TEMP then temp
       else if (0 <=? a) && (a <? 9) then nth (Z.to_nat a) out 0
       else 0;
     latency := K;
     busy := 0 |}.

(** A constructed driver object on device [d]. *)
Definition ready {D : Type} (d : D) (b : list Z) : world D :=
  {| bus := d; clock := 0; trace := [];
     self := {| i2c_device := _MMC5603_I2CADDR_DEFAULT; _buffer := Some b |} |}.

(** ** What the claims speak of *)

(** Register writes in a trace. *)
Definition is_write (e : event) : bool :=
  match e with
  | RegWrite _ _ => true
  | _ => false
  end.

(** The sleeps of a trace, in order. *)
Fixpoint sleeps (es : list event) : list Z :=
  match es with
  | [] => []
  | Sleep ms :: rest => ms :: sleeps rest
  | _ :: rest => sleeps rest
  end.

(** The register reads of a trace, in order. *)
Fixpoint reads (es : list event) : list (Z * Z) :=
  match es with
  | [] => []
  | RegRead a v :: rest => (a, v) :: reads rest
  | _ :: rest => reads rest
  end.

(** One axis as the specification words it:
    ((high << 12 | mid << 4 | (low >> 4)) - 2^19) * 0.00625. *)
Definition axis_uT {R : Type} {A : Real R} (high mid low : Z) : R :=
  real_mul
    (of_int (Z.lor (Z.lor (Z.shiftl high 12) (Z.shiftl mid 4)) (Z.shiftr low 4)
             - 2 ^ 19))
    lit_0_00625.

(** The 20-bit packed value of one axis. *)
Definition packed (high mid low : Z) : Z :=
  Z.lor (Z.lor (Z.shiftl high 12) (Z.shiftl mid 4)) (Z.shiftr low 4).

(** The device once the command [cmd] has been written to control
    register 0 and [K] polls of the status register have been made. *)
Definition measured {D : Type} {T : Transport D} (cmd : Z) (K : nat) (d : D) : D :=
  snd (poll_run K (write_register 0x1B cmd d)).

(** The status bytes those [K] polls read. *)
Definition statuses {D : Type} {T : Transport D} (cmd : Z) (K : nat) (d : D) : list Z :=
  fst (poll_run K (write_register 0x1B cmd d)).

(** After command [cmd] the device shows done bit [bit] at the [K]th poll
    and not before. *)
Definition done_at {D : Type} {T : Transport D} (cmd bit : Z) (K : nat) (d : D) : bool :=
  done_at_poll bit K (write_register 0x1B cmd d).

(** The bytes the device hands to the block read of a magnetic
    measurement that was done at the [K]th poll, and the device after it. *)
Definition read_back {D : Type} {T : Transport D} (K : nat) (d : D) : list Z :=
  fst (write_then_readinto [0x00] 9 (measured 0x21 K d)).

Definition after_read_back {D : Type} {T : Transport D} (K : nat) (d : D) : D :=
  snd (write_then_readinto [0x00] 9 (measured 0x21 K d)).

(** The byte in the temperature output register when the temperature
    measurement was done at the [K]th poll. *)
Definition raw_temperature {D : Type} {T : Transport D} (K : nat) (d : D) : Z :=
  fst (read_register 0x09 (measured 0x02 K d)).

(** The same world with another driver object in it. *)
Definition with_self {D : Type} (s : MMC5603) (w : world D) : world D :=
  {| bus := bus w; clock := clock w; trace := trace w; self := s |}.

(** A stretch of trace that only polls: reads of the status register and
    5 ms sleeps, no write and no block transaction. *)
Definition polling_only (es : list event) : bool :=
  forallb (fun e =>
             match e with
             | RegRead a _ => a =? 0x18
             | Sleep ms => ms =? 5
             | _ => false
             end) es.

(** The closed interval of the claim on exact axis values, in microteslas. *)
Definition in_axis_range (q : Q) : Prop :=
  (- (32768 # 10) <= q /\ q <= 327679375 # 100000)%Q.

(** ** Callers

    What a program does with a constructed driver is a sequence of calls of
    [reset()] and reads of [temperature] and [magnetic], each value kept. *)

Inductive call : Type := Reset | Temperature | Magnetic.

Inductive reading (R : Type) : Type :=
| NoValue
| Celsius (t : R)
| MicroTesla (xyz : R * R * R).
Arguments NoValue {R}.
Arguments Celsius {R} t.
Arguments MicroTesla {R} xyz.

Definition perform {D : Type} {T : Transport D} {R : Type} {A : Real R}
           (fuel : nat) (c : call) : M D (reading R) :=
  match c with
  | Reset => bind reset (fun _ => ret NoValue)
  | Temperature => bind (temperature fuel) (fun t => ret (Celsius t))
  | Magnetic => bind (magnetic fuel) (fun xyz => ret (MicroTesla xyz))
  end.

Fixpoint session {D : Type} {T : Transport D} {R : Type} {A : Real R}
         (fuel : nat) (cs : list call) : M D (list (reading R)) :=
  match cs with
  | [] => ret []
  | c :: rest =>
      bind (perform fuel c) (fun r =>
      bind (session fuel rest) (fun rs => ret (r :: rs)))
  end.

(** ** The measurement cycle as an automaton over the trace

    [Polling bit]: a command was written and done bit [bit] is awaited;
    [Waiting bit]: the last poll saw it clear; [Ready bit]: the last poll
    saw it set, the data may be read. *)

Inductive phase : Type :=
| Idle
| Resetting
| Polling (bit : Z)
| Waiting (bit : Z)
| Ready (bit : Z).

Definition protocol_step (p : phase) (e : event) : option phase :=
  match p, e with
  | Idle, RegWrite a v =>
      if (a =? 0x1C) && (v =? 0x80) then Some Resetting
      else if (a =? 0x1B) && (v =? 0x02) then Some (Polling 7)
      else if (a =? 0x1B) && (v =? 0x21) then Some (Polling 6)
      else None
  | Resetting, Sleep ms => if ms =? 20 then Some Idle else None
  | Polling bit, RegRead a v =>
      if a =? 0x18
      then Some (if bit_set v bit then Ready bit else Waiting bit)
      else None
  | Waiting bit, Sleep ms => if ms =? 5 then Some (Polling bit) else None
  | Ready bit, RegRead a _ =>
      if (bit =? 7) && (a =? 0x09) then Some Idle else None
  | Ready bit, WriteThenReadInto [out] n _ =>
      if (bit =? 6) && (out =? 0x00) && (n =? 9)%nat then Some Idle else None
  | _, _ => None
  end.

Fixpoint protocol_run (p : phase) (es : list event) : option phase :=
  match es with
  | [] => Some p
  | e :: rest =>
      match protocol_step p e with
      | Some p' => protocol_run p' rest
      | None => None
      end
  end.

(** What one call on a constructed driver comes to on a transport that
    answers: it is still polling, or it returned after whole cycles, the
    object still constructed. *)
Definition well_behaved {D : Type} {X : Type} (w : world D) (r : result D X) : Prop :=
  r = Hangs
  \/ exists x w' es,
       r = Returns x w'
       /\ trace w' = trace w ++ es
       /\ protocol_run Idle es = Some Idle
       /\ constructed w'
       /\ i2c_device (self w') = i2c_device (self w).

(** ** Attribute lookup on the object

    Names bound in the class body: the accessors of lines 69-78 and the
    methods and properties.  Lines 80-85 are a string literal and bind
    nothing; lines 95-99 of [__init__] are comments. *)

Definition class_attributes : list string :=
  [ "_chip_id"; "_ctrl0_reg"; "_ctrl1_reg"; "_status_reg"; "_reset";
    "_meas_m_done"; "_meas_t_done"; "_raw_temp_data";
    "__init__"; "reset"; "temperature"; "magnetic";
    "data_rate"; "performance_mode"; "operation_mode";
    "__module__"; "__qualname__"; "__doc__"; "__dict__"; "__weakref__" ]%string.

(** Names every object inherits. *)
Definition object_attributes : list string :=
  [ "__class__"; "__delattr__"; "__dir__"; "__eq__"; "__format__"; "__ge__";
    "__getattribute__"; "__gt__"; "__hash__"; "__init_subclass__"; "__le__";
    "__lt__"; "__ne__"; "__new__"; "__reduce__"; "__reduce_ex__"; "__repr__";
    "__setattr__"; "__sizeof__"; "__str__"; "__subclasshook__" ]%string.

(** Names in the instance dictionary: what [__init__] has assigned so far. *)
Definition instance_attributes (s : MMC5603) : list string :=
  ("i2c_device" :: match _buffer s with Some _ => ["_buffer"] | None => [] end)%string.

Definition has_attribute (s : MMC5603) (name : string) : bool :=
  existsb (String.eqb name)
    (instance_attributes s ++ class_attributes ++ object_attributes).

Section Getters.

Context {D : Type}.

(** What reading an attribute that is found does is left open. *)
Variable V : Type.
Variable read_attribute : string -> M D V.

(** [self.<name>] *)
Definition getattr_self (name : string) : M D V :=
  fun w =>
    if has_attribute (self w) name
    then read_attribute name w
    else Raises (AttributeError ("'MMC5603' object has no attribute '"
                                 ++ name ++ "'")) w.

(** The getters of [data_rate] (lines 146-149), [performance_mode]
    (lines 167-173) and [operation_mode] (lines 182-187). *)
Definition get_data_rate : M D V := getattr_self "_data_rate".
Definition get_performance_mode : M D V := getattr_self "_perf_mode".
Definition get_operation_mode : M D V := getattr_self "_operation_mode".

End Getters.

(** ** Binary64 values as rationals *)

(** The rational a finite binary64 number stands for: sign, mantissa and
    exponent as [Prim2SF] gives them. *)
Definition Q_of_float (f : float) : option Q :=
  match Prim2SF f with
  | S754_zero _ => Some 0%Q
  | S754_finite s m e =>
      Some (inject_Z (if s then Z.neg m else Z.pos m) * 2 ^ e)%Q
  | _ => None
  end.

(** [P] holds of the [n] integers from [z] on. *)
Fixpoint all_from (n : nat) (z : Z) (P : Z -> bool) : bool :=
  match n with
  | O => true
  | S k => if P z then all_from k (z + 1) P else false
  end.

(** The value of an axis whose packed 20-bit code is [p]. *)
Definition code_uT {R : Type} {A : Real R} (p : Z) : R :=
  real_mul (of_int (p - 524288)) lit_0_00625.

(** What the bytes [high], [mid], [low] of an axis say about its exact
    value [x]: the three fields add up, the top bit of [high] is the sign,
    and zero is the single code 0x80000. *)
Definition exact_axis_facts (high mid low : Z) (x : Q) : Prop :=
  (x == inject_Z (high * 4096 + mid * 16 + low / 16 - 524288) * (625 # 100000))%Q
  /\ ((x < 0)%Q <-> high < 0x80)
  /\ ((x == 0)%Q <-> high = 0x80 /\ mid = 0 /\ low < 16).

(** The same for the binary64 value [x]; the upper end of the interval is
    the binary64 number next above the one nearest 3276.79375. *)
Definition binary64_axis_facts (high mid low : Z) (x : float) : Prop :=
  PrimFloat.leb (-3276.8)%float x = true
  /\ PrimFloat.leb x 3276.7937500000003%float = true
  /\ PrimFloat.ltb x 0%float = (high <? 0x80)
  /\ PrimFloat.eqb x 0%float = (packed high mid low =? 524288)
  /\ (packed high mid low < 1048575 ->
      PrimFloat.ltb x (@code_uT float binary64 (packed high mid low + 1)) = true).

(** The check behind [binary64_axis_facts], on the packed code. *)
Definition binary64_code_ok (p : Z) : bool :=
  let v := @code_uT float binary64 p in
  PrimFloat.leb (-3276.8)%float v
  && PrimFloat.leb v 3276.7937500000003%float
  && Bool.eqb (PrimFloat.ltb v 0%float) (p <? 524288)
  && Bool.eqb (PrimFloat.eqb v 0%float) (p =? 524288)
  && ((p =? 1048575) || PrimFloat.ltb v (@code_uT float binary64 (p + 1))).

(** The conversion of lines 115-117 on a raw byte. *)
Definition celsius {R : Type} {A : Real R} (raw : Z) : R :=
  real_sub (real_mul (of_int raw) lit_0_8) (of_int 75).

(** ** Lemmas on the poll loop *)

Section Protocol.

Context {D : Type} {T : Transport D}.

Lemma bind_returns {A B} (c : M D A) (k : A -> M D B) w a w' :
  c w = Returns a w' -> bind c k w = k a w'.
Proof. intros H. unfold bind. rewrite H. reflexivity. Qed.

Lemma done_at_poll_pos bit K (d : D) : done_at_poll bit K d = true -> (1 <= K)%nat.
Proof. destruct K; simpl; [discriminate | lia]. Qed.

Lemma poll_run_length K (d : D) : length (fst (poll_run K d)) = K.
Proof.
  revert d. induction K as [|k IH]; intros d; [reflexivity|].
  simpl. destruct (read_register _ d) as [v d1].
  destruct k as [|k']; [reflexivity|].
  specialize (IH (elapse 5 d1)).
  destruct (poll_run (S k') (elapse 5 d1)) as [vs d2]. simpl in *. now rewrite IH.
Qed.

Lemma poll_events_cons v vs :
  vs <> [] ->
  poll_events (v :: vs) = RegRead _MMC5603_STATUS_REG v :: Sleep 5 :: poll_events vs.
Proof. destruct vs; [congruence | reflexivity]. Qed.

Lemma wait_until_done bit :
  forall K fuel (w : world D),
    (K <= fuel)%nat ->
    done_at_poll bit K (bus w) = true ->
    wait_until fuel (get_bit _MMC5603_STATUS_REG bit) w
    = Returns tt
        {| bus := snd (poll_run K (bus w));
           clock := clock w + 5 * (Z.of_nat K - 1);
           trace := trace w ++ poll_events (fst (poll_run K (bus w)));
           self := self w |}.
Proof.
  induction K as [|k IH]; intros fuel w Hfuel Hdone; [discriminate|].
  destruct fuel as [|f]; [lia|].
  cbn [wait_until done_at_poll poll_run] in *.
  unfold bind, get_bit, get_register, bind, ret.
  destruct (read_register _MMC5603_STATUS_REG (bus w)) as [v d1] eqn:Hr.
  destruct (bit_set v bit) eqn:Hb.
  - destruct k; [|discriminate]. cbn.
    f_equal. f_equal. lia.
  - pose proof (done_at_poll_pos _ _ _ Hdone) as Hk.
    destruct k as [|k']; [lia|].
    unfold time_sleep at 1. cbv beta iota.
    rewrite IH by (cbn [bus]; first [lia | exact Hdone]).
    cbn [bus clock trace self].
    pose proof (poll_run_length (S k') (elapse 5 d1)) as Hlen.
    destruct (poll_run (S k') (elapse 5 d1)) as [vs d2]. cbn [fst snd] in *.
    rewrite poll_events_cons by (destruct vs; [discriminate | congruence]).
    f_equal. f_equal.
    + lia.
    + rewrite <- !app_assoc. reflexivity.
Qed.

Lemma done_at_poll_statuses bit :
  forall K (d : D),
    done_at_poll bit K d = true ->
    exists vs v,
      fst (poll_run K d) = vs ++ [v]
      /\ length vs = (K - 1)%nat
      /\ Forall (fun u => bit_set u bit = false) vs
      /\ bit_set v bit = true.
Proof.
  induction K as [|k IH]; intros d Hdone; [discriminate|].
  cbn [done_at_poll poll_run] in *.
  destruct (read_register _MMC5603_STATUS_REG d) as [u d1].
  destruct (bit_set u bit) eqn:Hb.
  - destruct k; [|discriminate].
    exists [], u. repeat split; auto.
  - pose proof (done_at_poll_pos _ _ _ Hdone) as Hk.
    destruct k as [|k']; [lia|].
    destruct (IH _ Hdone) as (vs & v & Hrun & Hlen & Hclear & Hset).
    destruct (poll_run (S k') (elapse 5 d1)) as [us d2]. cbn [fst] in *.
    exists (u :: vs), v. subst us. repeat split; auto.
    cbn [length]. lia.
Qed.

Lemma poll_events_no_write vs : existsb is_write (poll_events vs) = false.
Proof.
  induction vs as [|v vs IH]; [reflexivity|].
  destruct vs; [reflexivity|]. exact IH.
Qed.

Lemma poll_events_sleeps vs : sleeps (poll_events vs) = repeat 5 (length vs - 1).
Proof.
  induction vs as [|v vs IH]; [reflexivity|].
  destruct vs as [|u us]; [reflexivity|].
  change (sleeps (poll_events (v :: u :: us)))
    with (5 :: sleeps (poll_events (u :: us))).
  rewrite IH. cbn [length]. now rewrite !Nat.sub_succ, !Nat.sub_0_r.
Qed.

Lemma poll_events_reads vs :
  reads (poll_events vs) = map (fun v => (_MMC5603_STATUS_REG, v)) vs.
Proof.
  induction vs as [|v vs IH]; [reflexivity|].
  destruct vs as [|u us]; [reflexivity|].
  change (reads (poll_events (v :: u :: us)))
    with ((_MMC5603_STATUS_REG, v) :: reads (poll_events (u :: us))).
  now rewrite IH.
Qed.

Lemma fill_length old data : length (fill old data) = length old.
Proof.
  unfold fill. rewrite length_app, length_firstn, length_skipn. lia.
Qed.

Lemma fill_exact old data : length data = length old -> fill old data = data.
Proof.
  intros H. unfold fill. rewrite <- H, firstn_all, skipn_all2 by lia.
  apply app_nil_r.
Qed.

Lemma buffer_get_run i (w : world D) b v :
  _buffer (self w) = Some b ->
  nth_error b i = Some v ->
  buffer_get i w = Returns v w.
Proof.
  intros Hb Hi. unfold buffer_get, bind, get_buffer. rewrite Hb, Hi. reflexivity.
Qed.

(** *** The measurement calls, run to the end *)

Section Runs.

Context {R : Type} {A : Real R}.

Lemma temperature_run K fuel (w : world D) :
  (K <= fuel)%nat ->
  done_at_poll 7 K (write_register _MMC5603_CTRL_REG0 0x02 (bus w)) = true ->
  let d0 := write_register _MMC5603_CTRL_REG0 0x02 (bus w) in
  let vs := fst (poll_run K d0) in
  let d1 := snd (poll_run K d0) in
  let raw := fst (read_register _MMC5603_OUT_TEMP d1) in
  temperature fuel w
  = Returns (real_sub (real_mul (of_int raw) lit_0_8) (of_int 75))
      {| bus := snd (read_register _MMC5603_OUT_TEMP d1);
         clock := clock w + 5 * (Z.of_nat K - 1);
         trace := trace w ++ RegWrite _MMC5603_CTRL_REG0 0x02
                    :: poll_events vs ++ [RegRead _MMC5603_OUT_TEMP raw];
         self := self w |}.
Proof.
  intros Hfuel Hdone d0 vs d1 raw.
  unfold temperature, set__ctrl0_reg, _meas_t_done, _raw_temp_data.
  unfold bind at 1. unfold set_register at 1. cbv beta iota.
  unfold bind at 1. rewrite (wait_until_done 7 K) by (cbn [bus]; assumption).
  cbn [bus clock trace self].
  unfold bind, get_register, ret. cbn [bus clock trace self].
  fold d0. fold d1.
  subst raw vs. destruct (read_register _MMC5603_OUT_TEMP d1) as [raw d2].
  cbn [fst snd]. f_equal. f_equal.
  rewrite <- !app_assoc. reflexivity.
Qed.

Lemma magnetic_run K fuel (w : world D) b :
  _buffer (self w) = Some b ->
  length b = 9%nat ->
  (K <= fuel)%nat ->
  done_at_poll 6 K (write_register _MMC5603_CTRL_REG0 0x21 (bus w)) = true ->
  let d0 := write_register _MMC5603_CTRL_REG0 0x21 (bus w) in
  let vs := fst (poll_run K d0) in
  let d1 := snd (poll_run K d0) in
  let data := fst (write_then_readinto [0] 9 d1) in
  let buf := fill (0 :: skipn 1 b) data in
  magnetic fuel w
  = Returns (axis_uT (nth 0 buf 0) (nth 1 buf 0) (nth 6 buf 0),
             axis_uT (nth 2 buf 0) (nth 3 buf 0) (nth 7 buf 0),
             axis_uT (nth 4 buf 0) (nth 5 buf 0) (nth 8 buf 0))
      {| bus := snd (write_then_readinto [0] 9 d1);
         clock := clock w + 5 * (Z.of_nat K - 1);
         trace := trace w ++ RegWrite _MMC5603_CTRL_REG0 0x21
                    :: poll_events vs ++ [WriteThenReadInto [0] 9 data];
         self := {| i2c_device := i2c_device (self w); _buffer := Some buf |} |}.
Proof.
  intros Hb Hlen Hfuel Hdone d0 vs d1 data buf.
  assert (Hbuf : length buf = 9%nat).
  { subst buf. rewrite fill_length. cbn [length]. rewrite length_skipn. lia. }
  unfold magnetic, set__ctrl0_reg, _meas_m_done, _MMC5603_OUT_X_L.
  unfold bind at 1. unfold set_register at 1. cbv beta iota.
  unfold bind at 1. rewrite (wait_until_done 6 K) by (cbn [bus]; assumption).
  cbn [bus clock trace self]. fold d0. fold d1. fold vs.
  unfold bind at 1. unfold buffer_set, bind at 1, get_buffer at 1.
  cbn [bus clock trace self]. rewrite Hb.
  assert (Hlt : (0 <? length b)%nat = true) by (apply Nat.ltb_lt; lia).
  rewrite Hlt. unfold put_buffer at 1. cbn [bus clock trace self i2c_device _buffer].
  unfold bind at 1. unfold buffer_write_then_readinto, bind at 1, get_buffer at 1.
  cbn [bus clock trace self i2c_device _buffer firstn app].
  replace (length (0 :: skipn 1 b)) with 9%nat
    by (cbn [length]; rewrite length_skipn; lia).
  rewrite (surjective_pairing (write_then_readinto [0] 9 d1)).
  cbn [bus clock trace self i2c_device _buffer].
  change (fst (write_then_readinto [0] 9 d1)) with data.
  change (fill (0 :: skipn 1 b) data) with buf.
  clearbody buf.
  destruct buf as [|c0 [|c1 [|c2 [|c3 [|c4 [|c5 [|c6 [|c7 [|c8 [|]]]]]]]]]];
    try discriminate Hbuf.
  repeat (erewrite bind_returns
            by (apply buffer_get_run with (b := [c0; c1; c2; c3; c4; c5; c6; c7; c8]);
                reflexivity)).
  unfold ret, axis_uT. cbn [nth]. f_equal. f_equal.
  rewrite <- !app_assoc. reflexivity.
Qed.

Lemma reset_run (w : world D) :
  reset w
  = Returns tt
      {| bus := elapse 20 (write_register _MMC5603_CTRL_REG1 0x80 (bus w));
         clock := clock w + 20;
         trace := trace w ++ [RegWrite _MMC5603_CTRL_REG1 0x80; Sleep 20];
         self := self w |}.
Proof.
  unfold reset, set__ctrl1_reg, bind, set_register, time_sleep.
  cbn [bus clock trace self]. rewrite <- app_assoc. reflexivity.
Qed.

End Runs.

End Protocol.

(** ** Arithmetic facts *)

Lemma lor_le_add a b : 0 <= a -> 0 <= b -> 0 <= Z.lor a b <= a + b.
Proof.
  intros Ha Hb. split.
  - apply Z.lor_nonneg. auto.
  - pose proof (Z.add_lor_land a b) as H.
    assert (0 <= Z.land a b) by (apply Z.land_nonneg; auto). lia.
Qed.

Lemma packed_range high mid low :
  is_byte high -> is_byte mid -> is_byte low ->
  0 <= packed high mid low <= 2 ^ 20 - 1.
Proof.
  unfold is_byte, packed. intros Hh Hm Hl.
  rewrite !Z.shiftl_mul_pow2, Z.shiftr_div_pow2 by lia.
  change (2 ^ 12) with 4096. change (2 ^ 4) with 16. change (2 ^ 20 - 1) with 1048575.
  assert (0 <= low / 16 < 16)
    by (split; [apply Z.div_pos; lia | apply Z.div_lt_upper_bound; lia]).
  pose proof (lor_le_add (high * 4096) (mid * 16) ltac:(lia) ltac:(lia)).
  pose proof (lor_le_add (Z.lor (high * 4096) (mid * 16)) (low / 16)
                ltac:(lia) ltac:(lia)).
  lia.
Qed.

(** A property of every byte value, checked value by value. *)
Lemma byte_cases (P : Z -> Prop) :
  Forall P (map Z.of_nat (seq 0 256)) -> forall z, 0 <= z <= 255 -> P z.
Proof.
  intros H z Hz. rewrite Forall_forall in H. apply H.
  rewrite <- (Z2Nat.id z) by lia. apply in_map, in_seq. lia.
Qed.

Lemma binary64_mul_0_8_comm raw :
  0 <= raw <= 255 ->
  PrimFloat.mul (float_of_int raw) 0.8%float = PrimFloat.mul 0.8%float (float_of_int raw).
Proof.
  revert raw. apply byte_cases.
  vm_compute. repeat (constructor; [reflexivity|]). constructor.
Qed.

Lemma poll_events_polling_only vs : polling_only (poll_events vs) = true.
Proof.
  induction vs as [|v vs IH]; [reflexivity|].
  destruct vs; [reflexivity|]. exact IH.
Qed.

(** Everything the claims say of a poll phase that ends at the [K]th poll. *)
Lemma poll_phase {D : Type} {T : Transport D} bit K (d : D) :
  done_at_poll bit K d = true ->
  exists vs v,
    fst (poll_run K d) = vs ++ [v]
    /\ length vs = (K - 1)%nat
    /\ Forall (fun u => bit_set u bit = false) vs
    /\ bit_set v bit = true
    /\ reads (poll_events (vs ++ [v])) = map (fun u => (0x18, u)) (vs ++ [v])
    /\ sleeps (poll_events (vs ++ [v])) = repeat 5 (K - 1)
    /\ existsb is_write (poll_events (vs ++ [v])) = false
    /\ polling_only (poll_events (vs ++ [v])) = true.
Proof.
  intros Hdone.
  destruct (done_at_poll_statuses bit K d Hdone) as (vs & v & Hrun & Hlen & Hclear & Hset).
  exists vs, v. repeat split; auto.
  - apply poll_events_reads.
  - rewrite poll_events_sleeps, length_app, Hlen. cbn [length].
    f_equal. lia.
  - apply poll_events_no_write.
  - apply poll_events_polling_only.
Qed.

Lemma axis_exact_range p :
  0 <= p <= 2 ^ 20 - 1 ->
  in_axis_range (inject_Z (p - 2 ^ 19) * (625 # 100000))%Q.
Proof.
  intros Hp. unfold in_axis_range, Qle. cbn. lia.
Qed.

(** A [magnetic] call whose block read delivers 9 bytes: value, device and
    object afterwards depend on those bytes and on nothing the buffer held. *)
Lemma magnetic_reads_back {D : Type} {T : Transport D} {R : Type} {A : Real R}
      K fuel (w : world D) b :
  _buffer (self w) = Some b ->
  length b = 9%nat ->
  (K <= fuel)%nat ->
  done_at 0x21 6 K (bus w) = true ->
  length (read_back K (bus w)) = 9%nat ->
  let data := read_back K (bus w) in
  magnetic fuel w
  = Returns (axis_uT (nth 0 data 0) (nth 1 data 0) (nth 6 data 0),
             axis_uT (nth 2 data 0) (nth 3 data 0) (nth 7 data 0),
             axis_uT (nth 4 data 0) (nth 5 data 0) (nth 8 data 0))
      {| bus := after_read_back K (bus w);
         clock := clock w + 5 * (Z.of_nat K - 1);
         trace := trace w ++ RegWrite 0x1B 0x21
                    :: poll_events (statuses 0x21 K (bus w))
                    ++ [WriteThenReadInto [0] 9 data];
         self := {| i2c_device := i2c_device (self w); _buffer := Some data |} |}.
Proof.
  intros Hb Hlen Hfuel Hdone H9 data.
  pose proof (magnetic_run (A := A) K fuel w b Hb Hlen Hfuel Hdone) as Hrun.
  cbv zeta in Hrun.
  change (fst (write_then_readinto [0]%Z 9
                 (snd (poll_run K (write_register _MMC5603_CTRL_REG0 33 (bus w))))))
    with data in Hrun.
  rewrite fill_exact in Hrun
    by (cbn [length]; rewrite length_skipn; subst data; lia).
  exact Hrun.
Qed.

(** ** The claims *)

(** C1: whatever 9 bytes the read-back leaves in the measurement buffer,
    [magnetic] returns the triple whose axis i is
    ((high_i << 12 | mid_i << 4 | (low_i >> 4)) - 2^19) * 0.00625 with high_i
    and mid_i the bytes 2i and 2i+1 and low_i the byte 6+i, in binary64 as
    in exact arithmetic.  In binary64 the bytes 80 00 80 00 80 00 00 00 00
    give 0.0 on each axis, and an axis packed to (1<<19)+160 gives 1.0, the
    others staying at 0.0. *)
Theorem magnetic_decodes_buffer :
  (forall (D : Type) (T : Transport D) (R : Type) (A : Real R)
          (K fuel : nat) (w : world D) (b : list Z)
          (b0 b1 b2 b3 b4 b5 b6 b7 b8 : Z),
      _buffer (self w) = Some b ->
      length b = 9%nat ->
      (K <= fuel)%nat ->
      done_at 0x21 6 K (bus w) = true ->
      read_back K (bus w) = [b0; b1; b2; b3; b4; b5; b6; b7; b8] ->
      exists w',
        magnetic fuel w
        = Returns (axis_uT b0 b1 b6, axis_uT b2 b3 b7, axis_uT b4 b5 b8) w'
        /\ _buffer (self w') = Some [b0; b1; b2; b3; b4; b5; b6; b7; b8])
  /\ packed 0x80 0x00 0x00 = Z.shiftl 1 19
  /\ @axis_uT float binary64 0x80 0x00 0x00 = 0%float
  /\ packed 0x80 0x0A 0x00 = Z.shiftl 1 19 + 160
  /\ @axis_uT float binary64 0x80 0x0A 0x00 = 1%float
  /\ (exists w',
         magnetic (R := float) 1
           (ready (chip 0x10 [0x80; 0x00; 0x80; 0x00; 0x80; 0x00; 0x00; 0x00; 0x00] 0 1)
              (repeat 0 9))
         = Returns (0%float, 0%float, 0%float) w')
  /\ (exists w',
         magnetic (R := float) 1
           (ready (chip 0x10 [0x80; 0x0A; 0x80; 0x00; 0x80; 0x00; 0x00; 0x00; 0x00] 0 1)
              (repeat 0 9))
         = Returns (1%float, 0%float, 0%float) w').
Proof.
  split; [|repeat split; try reflexivity; eexists; vm_compute; reflexivity].
  intros D T R A K fuel w b b0 b1 b2 b3 b4 b5 b6 b7 b8 Hb Hlen Hfuel Hdone Hrb.
  pose proof (magnetic_run (A := A) K fuel w b Hb Hlen Hfuel Hdone) as Hrun.
  cbv zeta in Hrun.
  change (fst (write_then_readinto [0]%Z 9
                 (snd (poll_run K (write_register _MMC5603_CTRL_REG0 33 (bus w))))))
    with (read_back K (bus w)) in Hrun.
  rewrite Hrb in Hrun.
  rewrite fill_exact in Hrun by (cbn [length]; rewrite length_skipn; lia).
  cbn [nth] in Hrun.
  eexists. split; [exact Hrun | reflexivity].
Qed.

(** The chip at mid-scale on every axis reads (0.0, 0.0, 0.0). *)
Lemma magnetic_decodes_buffer_witness :
  exists w',
    magnetic (R := float) 5 (ready (chip 0x10 [0x80; 0; 0x80; 0; 0x80; 0; 0; 0; 0] 0 3)
                               (repeat 0 9))
    = Returns (0%float, 0%float, 0%float) w'
    /\ _buffer (self w') = Some [0x80; 0; 0x80; 0; 0x80; 0; 0; 0; 0].
Proof.
  apply (proj1 magnetic_decodes_buffer sim sim_transport float binary64 3%nat 5%nat
           (ready (chip 0x10 [0x80; 0; 0x80; 0; 0x80; 0; 0; 0; 0] 0 3) (repeat 0 9))
           (repeat 0 9) 0x80 0 0x80 0 0x80 0 0 0 0).
  - reflexivity.
  - reflexivity.
  - lia.
  - vm_compute. reflexivity.
  - vm_compute. reflexivity.
Defined.

(** C2: for every raw temperature byte 0..255 [temperature] returns
    0.8 * raw - 75, as the binary64 value of that expression and, read in
    exact arithmetic, as that rational; raw 0 gives -75.0 and raw 255 gives
    129.0. *)
Theorem temperature_is_affine :
  forall (D : Type) (T : Transport D) (K fuel : nat) (w : world D) (raw : Z),
    0 <= raw <= 255 ->
    (K <= fuel)%nat ->
    done_at 0x02 7 K (bus w) = true ->
    raw_temperature K (bus w) = raw ->
    (exists (t : float) w',
        temperature (R := float) fuel w = Returns t w'
        /\ t = PrimFloat.sub (PrimFloat.mul 0.8%float (float_of_int raw)) 75%float
        /\ (raw = 0 -> t = (-75)%float)
        /\ (raw = 255 -> t = 129%float))
    /\ (exists (q : Q) w',
           temperature (R := Q) fuel w = Returns q w'
           /\ (q == (8 # 10) * inject_Z raw - 75)%Q).
Proof.
  intros D T K fuel w raw Hraw Hfuel Hdone Hreg. split.
  - pose proof (temperature_run (A := binary64) K fuel w Hfuel Hdone) as Hrun.
    cbv zeta in Hrun.
    change (fst (read_register _MMC5603_OUT_TEMP
                   (snd (poll_run K (write_register _MMC5603_CTRL_REG0 2 (bus w))))))
      with (raw_temperature K (bus w)) in Hrun.
    rewrite Hreg in Hrun.
    eexists. eexists. split; [exact Hrun|].
    cbn [real_sub real_mul of_int lit_0_8 binary64].
    rewrite binary64_mul_0_8_comm by assumption.
    split; [reflexivity|].
    split; intros ->; reflexivity.
  - pose proof (temperature_run (A := exact) K fuel w Hfuel Hdone) as Hrun.
    cbv zeta in Hrun.
    change (fst (read_register _MMC5603_OUT_TEMP
                   (snd (poll_run K (write_register _MMC5603_CTRL_REG0 2 (bus w))))))
      with (raw_temperature K (bus w)) in Hrun.
    rewrite Hreg in Hrun.
    eexists. eexists. split; [exact Hrun|].
    cbn [real_sub real_mul of_int lit_0_8 exact]. ring.
Qed.

(** The chip with raw temperature 255, done at the second poll. *)
Lemma temperature_is_affine_witness :
  (exists (t : float) w',
      temperature (R := float) 2 (ready (chip 0x10 [] 255 2) (repeat 0 9)) = Returns t w'
      /\ t = PrimFloat.sub (PrimFloat.mul 0.8%float (float_of_int 255)) 75%float
      /\ (255 = 0 -> t = (-75)%float)
      /\ (255 = 255 -> t = 129%float))
  /\ (exists (q : Q) w',
         temperature (R := Q) 2 (ready (chip 0x10 [] 255 2) (repeat 0 9)) = Returns q w'
         /\ (q == (8 # 10) * inject_Z 255 - 75)%Q).
Proof.
  apply (temperature_is_affine sim sim_transport 2%nat 2%nat
           (ready (chip 0x10 [] 255 2) (repeat 0 9)) 255).
  - lia.
  - lia.
  - vm_compute. reflexivity.
  - vm_compute. reflexivity.
Defined.

(** C3: when the product-ID register reads anything but 0x10 the
    constructor raises the error of line 91 (the specification's
    DeviceNotFoundError) after that single read, with no register written
    and no buffer on the object; when it reads 0x10 the constructor returns,
    having reset the chip, with the 9-byte buffer allocated. *)
Theorem construction_checks_product_id :
  forall (D : Type) (T : Transport D) (d : D) (address id : Z),
    fst (read_register 0x39 d) = id ->
    (id <> 0x10 ->
     exists w',
       new_MMC5603 d address
       = Raises (RuntimeError "Failed to find MMC5603 - check your wiring!") w'
       /\ trace w' = [RegRead 0x39 id]
       /\ _buffer (self w') = None)
    /\ (id = 0x10 ->
        exists w',
          new_MMC5603 d address = Returns tt w'
          /\ trace w' = [RegRead 0x39 0x10; RegWrite 0x1C 0x80; Sleep 20]
          /\ i2c_device (self w') = address
          /\ _buffer (self w') = Some [0; 0; 0; 0; 0; 0; 0; 0; 0]
          /\ constructed w').
Proof.
  intros D T d address id Hid. subst id.
  set (id := fst (read_register 0x39 d)).
  assert (Hread :
            get_register 0x39
              {| bus := d; clock := 0; trace := [];
                 self := {| i2c_device := address; _buffer := None |} |}
            = Returns id
                {| bus := snd (read_register 0x39 d); clock := 0;
                   trace := [RegRead 0x39 id];
                   self := {| i2c_device := address; _buffer := None |} |}).
  { unfold get_register. cbn [bus clock trace self].
    subst id. destruct (read_register 0x39 d) as [v d1]. reflexivity. }
  unfold new_MMC5603, __init__, _chip_id. change _MMC5603_PRODUCT_ID with 0x39.
  rewrite (bind_returns _ _ _ _ _ Hread). cbv beta.
  split; intros Hne.
  - assert (Hneq : (id =? _MMC5603_CHIP_ID) = false) by (apply Z.eqb_neq; exact Hne).
    rewrite Hneq. cbn [negb]. eexists. split; [reflexivity|]. split; reflexivity.
  - rewrite Hne. change (16 =? _MMC5603_CHIP_ID) with true. cbn [negb].
    rewrite (bind_returns _ _ _ _ _ (reset_run _)).
    unfold put_buffer. cbn [bus clock trace self i2c_device].
    eexists. split; [reflexivity|].
    repeat split. exists (repeat 0 9). split; reflexivity.
Qed.

(** A chip answering 0x11 is refused; one answering 0x10 is accepted. *)
Lemma construction_checks_product_id_witness :
  (exists w',
      new_MMC5603 (chip 0x11 [] 0 1) 0x30
      = Raises (RuntimeError "Failed to find MMC5603 - check your wiring!") w'
      /\ trace w' = [RegRead 0x39 0x11]
      /\ _buffer (self w') = None)
  /\ (exists w',
         new_MMC5603 (chip 0x10 [] 0 1) 0x30 = Returns tt w'
         /\ trace w' = [RegRead 0x39 0x10; RegWrite 0x1C 0x80; Sleep 20]
         /\ i2c_device (self w') = 0x30
         /\ _buffer (self w') = Some [0; 0; 0; 0; 0; 0; 0; 0; 0]
         /\ constructed w').
Proof.
  split.
  - apply (proj1 (construction_checks_product_id sim sim_transport
                    (chip 0x11 [] 0 1) 0x30 0x11 eq_refl)).
    discriminate.
  - apply (proj2 (construction_checks_product_id sim sim_transport
                    (chip 0x10 [] 0 1) 0x30 0x10 eq_refl)).
    reflexivity.
Defined.

(** C4: for every K >= 1, when the status register shows the done bit
    (bit 7 after the temperature command, bit 6 after the magnetic one) at
    the Kth poll and at none before, the measurement call returns for any
    fuel of at least K; it made exactly K polls, the Kth the only one read as
    done, with one 5 ms sleep between consecutive polls (K - 1 in all), and
    the polling stretch of its trace holds no register write. *)
Theorem poll_loop_terminates :
  forall (D : Type) (T : Transport D) (R : Type) (A : Real R)
         (K fuel : nat) (w : world D),
    (1 <= K)%nat ->
    (K <= fuel)%nat ->
    (done_at 0x02 7 K (bus w) = true ->
     exists (t : R) w' vs v,
       temperature fuel w = Returns t w'
       /\ statuses 0x02 K (bus w) = vs ++ [v]
       /\ length vs = (K - 1)%nat
       /\ Forall (fun u => bit_set u 7 = false) vs
       /\ bit_set v 7 = true
       /\ trace w'
          = trace w ++ [RegWrite 0x1B 0x02] ++ poll_events (vs ++ [v])
              ++ [RegRead 0x09 (raw_temperature K (bus w))]
       /\ reads (poll_events (vs ++ [v])) = map (fun u => (0x18, u)) (vs ++ [v])
       /\ sleeps (poll_events (vs ++ [v])) = repeat 5 (K - 1)
       /\ existsb is_write (poll_events (vs ++ [v])) = false
       /\ clock w' = clock w + 5 * (Z.of_nat K - 1))
    /\ (constructed w ->
        done_at 0x21 6 K (bus w) = true ->
        exists (xyz : R * R * R) w' vs v,
          magnetic fuel w = Returns xyz w'
          /\ statuses 0x21 K (bus w) = vs ++ [v]
          /\ length vs = (K - 1)%nat
          /\ Forall (fun u => bit_set u 6 = false) vs
          /\ bit_set v 6 = true
          /\ trace w'
             = trace w ++ [RegWrite 0x1B 0x21] ++ poll_events (vs ++ [v])
                 ++ [WriteThenReadInto [0x00] 9 (read_back K (bus w))]
          /\ reads (poll_events (vs ++ [v])) = map (fun u => (0x18, u)) (vs ++ [v])
          /\ sleeps (poll_events (vs ++ [v])) = repeat 5 (K - 1)
          /\ existsb is_write (poll_events (vs ++ [v])) = false
          /\ clock w' = clock w + 5 * (Z.of_nat K - 1)).
Proof.
  intros D T R A K fuel w HK Hfuel. split.
  - intros Hdone.
    pose proof (temperature_run (A := A) K fuel w Hfuel Hdone) as Hrun.
    cbv zeta in Hrun. unfold _MMC5603_CTRL_REG0, _MMC5603_OUT_TEMP in Hrun.
    destruct (poll_phase 7 K _ Hdone)
      as (vs & v & Hst & Hlen & Hclear & Hset & Hreads & Hsleeps & Hnw & _).
    eexists. eexists. exists vs, v.
    split; [exact Hrun|]. cbn [trace clock].
    unfold statuses, raw_temperature, measured.
    rewrite Hst. repeat split; auto.
  - intros (b & Hb & Hlen9) Hdone.
    pose proof (magnetic_run (A := A) K fuel w b Hb Hlen9 Hfuel Hdone) as Hrun.
    cbv zeta in Hrun. unfold _MMC5603_CTRL_REG0 in Hrun.
    destruct (poll_phase 6 K _ Hdone)
      as (vs & v & Hst & Hlen & Hclear & Hset & Hreads & Hsleeps & Hnw & _).
    eexists. eexists. exists vs, v.
    split; [exact Hrun|]. cbn [trace clock].
    unfold statuses, read_back, measured.
    rewrite Hst. repeat split; auto.
Qed.

(** A chip that is done at the third poll: both calls return with fuel 3. *)
Lemma poll_loop_terminates_witness :
  (exists (t : float) w' vs v,
     temperature 3 (ready (chip 0x10 [] 0 3) (repeat 0 9)) = Returns t w'
     /\ statuses 0x02 3 (bus (ready (chip 0x10 [] 0 3) (repeat 0 9))) = vs ++ [v]
     /\ length vs = (3 - 1)%nat
     /\ Forall (fun u => bit_set u 7 = false) vs
     /\ bit_set v 7 = true
     /\ trace w'
        = trace (ready (chip 0x10 [] 0 3) (repeat 0 9))
            ++ [RegWrite 0x1B 0x02] ++ poll_events (vs ++ [v])
            ++ [RegRead 0x09
                  (raw_temperature 3 (bus (ready (chip 0x10 [] 0 3) (repeat 0 9))))]
     /\ reads (poll_events (vs ++ [v])) = map (fun u => (0x18, u)) (vs ++ [v])
     /\ sleeps (poll_events (vs ++ [v])) = repeat 5 (3 - 1)
     /\ existsb is_write (poll_events (vs ++ [v])) = false
     /\ clock w' = clock (ready (chip 0x10 [] 0 3) (repeat 0 9)) + 5 * (Z.of_nat 3 - 1))
  /\ (exists (xyz : float * float * float) w' vs v,
        magnetic 3 (ready (chip 0x10 [] 0 3) (repeat 0 9)) = Returns xyz w'
        /\ statuses 0x21 3 (bus (ready (chip 0x10 [] 0 3) (repeat 0 9))) = vs ++ [v]
        /\ length vs = (3 - 1)%nat
        /\ Forall (fun u => bit_set u 6 = false) vs
        /\ bit_set v 6 = true
        /\ trace w'
           = trace (ready (chip 0x10 [] 0 3) (repeat 0 9))
               ++ [RegWrite 0x1B 0x21] ++ poll_events (vs ++ [v])
               ++ [WriteThenReadInto [0x00] 9
                     (read_back 3 (bus (ready (chip 0x10 [] 0 3) (repeat 0 9))))]
        /\ reads (poll_events (vs ++ [v])) = map (fun u => (0x18, u)) (vs ++ [v])
        /\ sleeps (poll_events (vs ++ [v])) = repeat 5 (3 - 1)
        /\ existsb is_write (poll_events (vs ++ [v])) = false
        /\ clock w' = clock (ready (chip 0x10 [] 0 3) (repeat 0 9)) + 5 * (Z.of_nat 3 - 1)).
Proof.
  split.
  - apply (proj1 (poll_loop_terminates sim sim_transport float binary64 3%nat 3%nat
                    (ready (chip 0x10 [] 0 3) (repeat 0 9))
                    ltac:(lia) ltac:(lia))).
    vm_compute. reflexivity.
  - apply (proj2 (poll_loop_terminates sim sim_transport float binary64 3%nat 3%nat
                    (ready (chip 0x10 [] 0 3) (repeat 0 9))
                    ltac:(lia) ltac:(lia))).
    + exists (repeat 0 9). split; reflexivity.
    + vm_compute. reflexivity.
Defined.



(** C6: [reset] writes the byte 0x80 to control register 1 (0x1C), sleeps
    20 ms, so that the clock has advanced by at least 20 ms when it returns,
    returns nothing, does nothing else on the bus and leaves the object as
    it was.  The device it leaves is the device it found with exactly that
    write made and 20 ms gone by. *)
Theorem reset_writes_then_waits :
  forall (D : Type) (T : Transport D) (w : world D),
    exists w',
      reset w = Returns tt w'
      /\ bus w' = elapse 20 (write_register 0x1C 0x80 (bus w))
      /\ trace w' = trace w ++ [RegWrite 0x1C 0x80; Sleep 20]
      /\ clock w' = clock w + 20
      /\ clock w + 20 <= clock w'
      /\ self w' = self w.
Proof.
  intros D T w. eexists. split; [apply reset_run|].
  cbn [bus trace clock self]. repeat split. lia.
Qed.

(** C7: two [magnetic] calls in a row, the device handing the same 9 raw
    bytes to the block read of each, return the same (X, Y, Z); and whatever
    9 bytes the buffer held before the first call, that call returns this
    same triple. *)
Theorem magnetic_is_repeatable :
  forall (D : Type) (T : Transport D) (R : Type) (A : Real R)
         (K1 K2 fuel1 fuel2 : nat) (w : world D) (b : list Z),
    _buffer (self w) = Some b ->
    length b = 9%nat ->
    (K1 <= fuel1)%nat ->
    (K2 <= fuel2)%nat ->
    done_at 0x21 6 K1 (bus w) = true ->
    done_at 0x21 6 K2 (after_read_back K1 (bus w)) = true ->
    length (read_back K1 (bus w)) = 9%nat ->
    read_back K2 (after_read_back K1 (bus w)) = read_back K1 (bus w) ->
    exists (xyz : R * R * R) w1 w2,
      magnetic fuel1 w = Returns xyz w1
      /\ magnetic fuel2 w1 = Returns xyz w2
      /\ forall b', length b' = 9%nat ->
           exists w1',
             magnetic fuel1
               (with_self {| i2c_device := i2c_device (self w); _buffer := Some b' |} w)
             = Returns xyz w1'.
Proof.
  intros D T R A K1 K2 fuel1 fuel2 w b Hb Hlen Hf1 Hf2 Hd1 Hd2 H9 Hsame.
  pose proof (magnetic_reads_back (A := A) K1 fuel1 w b Hb Hlen Hf1 Hd1 H9) as Hrun1.
  cbv zeta in Hrun1.
  eexists. eexists. eexists.
  split; [exact Hrun1|]. split.
  - rewrite (magnetic_reads_back (A := A) K2 fuel2 _ (read_back K1 (bus w)));
      cbn [bus self _buffer]; try assumption; try reflexivity.
    + rewrite Hsame. reflexivity.
    + rewrite Hsame. exact H9.
  - intros b' Hb'. eexists.
    apply (magnetic_reads_back (A := A) K1 fuel1
             (with_self {| i2c_device := i2c_device (self w); _buffer := Some b' |} w) b');
      cbn [with_self bus self _buffer]; try assumption; reflexivity.
Qed.

(** Two readings of a chip whose output registers stay put. *)
Lemma magnetic_is_repeatable_witness :
  exists (xyz : float * float * float) w1 w2,
    magnetic 4 (ready (chip 0x10 [0x81; 2; 0x7F; 4; 0x80; 6; 0x70; 0x80; 0x90] 0 3)
                  (repeat 0 9))
    = Returns xyz w1
    /\ magnetic 3 w1 = Returns xyz w2
    /\ forall b', length b' = 9%nat ->
         exists w1',
           magnetic 4
             (with_self
                {| i2c_device :=
                     i2c_device
                       (self (ready (chip 0x10 [0x81; 2; 0x7F; 4; 0x80; 6; 0x70; 0x80; 0x90] 0 3)
                                (repeat 0 9)));
                   _buffer := Some b' |}
                (ready (chip 0x10 [0x81; 2; 0x7F; 4; 0x80; 6; 0x70; 0x80; 0x90] 0 3)
                   (repeat 0 9)))
           = Returns xyz w1'.
Proof.
  apply (magnetic_is_repeatable sim sim_transport float binary64 3%nat 3%nat 4%nat 3%nat
           (ready (chip 0x10 [0x81; 2; 0x7F; 4; 0x80; 6; 0x70; 0x80; 0x90] 0 3)
              (repeat 0 9))
           (repeat 0 9)).
  - reflexivity.
  - reflexivity.
  - lia.
  - lia.
  - vm_compute. reflexivity.
  - vm_compute. reflexivity.
  - vm_compute. reflexivity.
  - vm_compute. reflexivity.
Defined.

(** C8: whatever value is assigned and whatever state the driver is in,
    each of the three setters raises at its first global name ([Rate],
    [PerformanceMode], [OperationMode]: none is bound in the module or
    built in), leaving device, trace, clock and object untouched: no
    register is written and no attribute is set.  This holds however
    attribute access, calls and assignment on Python objects behave. *)
Theorem configuration_setters_raise :
  forall (D : Type) (V : Type) (global_value : string -> V) (py_float : float -> V)
         (getattr : V -> string -> M D V) (py_is : V -> V -> bool)
         (call : V -> list V -> M D V) (truth : V -> bool)
         (setattr_self : string -> V -> M D unit)
         (value : V) (w : world D),
    set_data_rate V global_value py_float getattr py_is call truth setattr_self value w
    = Raises (NameError "Rate") w
    /\ set_performance_mode V global_value getattr call truth setattr_self value w
       = Raises (NameError "PerformanceMode") w
    /\ set_operation_mode V global_value getattr call truth setattr_self value w
       = Raises (NameError "OperationMode") w.
Proof.
  intros. repeat split; reflexivity.
Qed.

(** C9: [temperature] returns with the driver object, and so its 9-byte
    buffer, exactly as it found it; the value and everything done on the bus
    are the same whatever the object holds; between the command write and
    the one read of the temperature output register (0x09) it only polls,
    with no block transaction. *)
Theorem temperature_leaves_buffer :
  forall (D : Type) (T : Transport D) (R : Type) (A : Real R)
         (K fuel : nat) (w : world D),
    (K <= fuel)%nat ->
    done_at 0x02 7 K (bus w) = true ->
    exists (t : R) w' polls,
      temperature fuel w = Returns t w'
      /\ self w' = self w
      /\ _buffer (self w') = _buffer (self w)
      /\ trace w'
         = trace w ++ [RegWrite 0x1B 0x02] ++ polls
             ++ [RegRead 0x09 (raw_temperature K (bus w))]
      /\ polling_only polls = true
      /\ forall s, temperature fuel (with_self s w) = Returns t (with_self s w').
Proof.
  intros D T R A K fuel w Hfuel Hdone.
  pose proof (temperature_run (A := A) K fuel w Hfuel Hdone) as Hrun.
  cbv zeta in Hrun. unfold _MMC5603_CTRL_REG0, _MMC5603_OUT_TEMP in Hrun.
  eexists. eexists. eexists.
  split; [exact Hrun|]. cbn [self trace].
  split; [reflexivity|]. split; [reflexivity|].
  split; [reflexivity|].
  split; [apply poll_events_polling_only|].
  intros s.
  exact (temperature_run (A := A) K fuel (with_self s w) Hfuel Hdone).
Qed.

(** A constructed driver whose buffer holds an earlier reading. *)
Lemma temperature_leaves_buffer_witness :
  exists (t : float) w' polls,
    temperature 2 (ready (chip 0x10 [] 100 2) [1; 2; 3; 4; 5; 6; 7; 8; 9]) = Returns t w'
    /\ self w' = self (ready (chip 0x10 [] 100 2) [1; 2; 3; 4; 5; 6; 7; 8; 9])
    /\ _buffer (self w')
       = _buffer (self (ready (chip 0x10 [] 100 2) [1; 2; 3; 4; 5; 6; 7; 8; 9]))
    /\ trace w'
       = trace (ready (chip 0x10 [] 100 2) [1; 2; 3; 4; 5; 6; 7; 8; 9])
           ++ [RegWrite 0x1B 0x02] ++ polls
           ++ [RegRead 0x09
                 (raw_temperature 2
                    (bus (ready (chip 0x10 [] 100 2) [1; 2; 3; 4; 5; 6; 7; 8; 9])))]
    /\ polling_only polls = true
    /\ forall s,
         temperature 2 (with_self s (ready (chip 0x10 [] 100 2) [1; 2; 3; 4; 5; 6; 7; 8; 9]))
         = Returns t (with_self s w').
Proof.
  apply (temperature_leaves_buffer sim sim_transport float binary64 2%nat 2%nat
           (ready (chip 0x10 [] 100 2) [1; 2; 3; 4; 5; 6; 7; 8; 9])).
  - lia.
  - vm_compute. reflexivity.
Defined.

(** C10: with every buffer byte in 0..255, each packed value is within
    0 .. 2^20 - 1 and each axis [magnetic] returns, computed over the
    rationals, is (packed - 2^19) * 0.00625 and lies in
    [-3276.8, 3276.79375]. *)
Theorem magnetic_exact_range :
  forall (D : Type) (T : Transport D) (K fuel : nat) (w : world D) (b : list Z)
         (b0 b1 b2 b3 b4 b5 b6 b7 b8 : Z),
    _buffer (self w) = Some b ->
    length b = 9%nat ->
    (K <= fuel)%nat ->
    done_at 0x21 6 K (bus w) = true ->
    read_back K (bus w) = [b0; b1; b2; b3; b4; b5; b6; b7; b8] ->
    Forall is_byte [b0; b1; b2; b3; b4; b5; b6; b7; b8] ->
    exists (x y z : Q) w',
      magnetic (R := Q) fuel w = Returns (x, y, z) w'
      /\ 0 <= packed b0 b1 b6 <= 2 ^ 20 - 1
      /\ 0 <= packed b2 b3 b7 <= 2 ^ 20 - 1
      /\ 0 <= packed b4 b5 b8 <= 2 ^ 20 - 1
      /\ (x == inject_Z (packed b0 b1 b6 - 2 ^ 19) * (625 # 100000))%Q
      /\ (y == inject_Z (packed b2 b3 b7 - 2 ^ 19) * (625 # 100000))%Q
      /\ (z == inject_Z (packed b4 b5 b8 - 2 ^ 19) * (625 # 100000))%Q
      /\ in_axis_range x /\ in_axis_range y /\ in_axis_range z.
Proof.
  intros D T K fuel w b b0 b1 b2 b3 b4 b5 b6 b7 b8 Hb Hlen Hfuel Hdone Hrb Hbytes.
  assert (H9 : length (read_back K (bus w)) = 9%nat) by (rewrite Hrb; reflexivity).
  pose proof (magnetic_reads_back (A := exact) K fuel w b Hb Hlen Hfuel Hdone H9) as Hrun.
  cbv zeta in Hrun. rewrite Hrb in Hrun. cbn [nth] in Hrun.
  repeat match goal with
         | H : Forall _ (_ :: _) |- _ => inversion H; clear H; subst
         end.
  pose proof (packed_range b0 b1 b6 ltac:(assumption) ltac:(assumption) ltac:(assumption)).
  pose proof (packed_range b2 b3 b7 ltac:(assumption) ltac:(assumption) ltac:(assumption)).
  pose proof (packed_range b4 b5 b8 ltac:(assumption) ltac:(assumption) ltac:(assumption)).
  eexists. eexists. eexists. eexists.
  split; [exact Hrun|].
  repeat (split; [assumption|]).
  repeat (split; [reflexivity|]).
  repeat split; apply axis_exact_range; assumption.
Qed.

(** Every output register at 0xFF: the top of the range. *)
Lemma magnetic_exact_range_witness :
  exists (x y z : Q) w',
    magnetic (R := Q) 1
      (ready (chip 0x10 [0xFF; 0xFF; 0xFF; 0xFF; 0xFF; 0xFF; 0xFF; 0xFF; 0xFF] 0 1)
         (repeat 0 9))
    = Returns (x, y, z) w'
    /\ 0 <= packed 0xFF 0xFF 0xFF <= 2 ^ 20 - 1
    /\ 0 <= packed 0xFF 0xFF 0xFF <= 2 ^ 20 - 1
    /\ 0 <= packed 0xFF 0xFF 0xFF <= 2 ^ 20 - 1
    /\ (x == inject_Z (packed 0xFF 0xFF 0xFF - 2 ^ 19) * (625 # 100000))%Q
    /\ (y == inject_Z (packed 0xFF 0xFF 0xFF - 2 ^ 19) * (625 # 100000))%Q
    /\ (z == inject_Z (packed 0xFF 0xFF 0xFF - 2 ^ 19) * (625 # 100000))%Q
    /\ in_axis_range x /\ in_axis_range y /\ in_axis_range z.
Proof.
  apply (magnetic_exact_range sim sim_transport 1%nat 1%nat
           (ready (chip 0x10 [0xFF; 0xFF; 0xFF; 0xFF; 0xFF; 0xFF; 0xFF; 0xFF; 0xFF] 0 1)
              (repeat 0 9))
           (repeat 0 9) 0xFF 0xFF 0xFF 0xFF 0xFF 0xFF 0xFF 0xFF 0xFF).
  - reflexivity.
  - reflexivity.
  - lia.
  - vm_compute. reflexivity.
  - vm_compute. reflexivity.
  - repeat constructor; unfold is_byte; lia.
Defined.

(** ** Beyond the claims *)

Section Outcomes.

Context {D : Type} {T : Transport D}.

Lemma done_at_poll_step bit k (d : D) :
  bit_set (fst (read_register _MMC5603_STATUS_REG d)) bit = false ->
  done_at_poll bit (S k) d
  = done_at_poll bit k (elapse 5 (snd (read_register _MMC5603_STATUS_REG d))).
Proof.
  intros Hb. cbn [done_at_poll].
  destruct (read_register _MMC5603_STATUS_REG d) as [v d1]. cbn [fst snd] in *.
  now rewrite Hb.
Qed.

Lemma wait_until_hangs bit :
  forall fuel (w : world D),
    (forall K, (K <= fuel)%nat -> done_at_poll bit K (bus w) = false) ->
    wait_until fuel (get_bit _MMC5603_STATUS_REG bit) w = Hangs.
Proof.
  induction fuel as [|f IH]; intros w Hnone; [reflexivity|].
  cbn [wait_until]. unfold bind, get_bit, get_register, bind, ret.
  pose proof (Hnone 1%nat ltac:(lia)) as H1. cbn [done_at_poll] in H1.
  pose proof (fun k => done_at_poll_step bit k (bus w)) as Hstep.
  destruct (read_register _MMC5603_STATUS_REG (bus w)) as [v d1].
  cbn [fst snd] in Hstep.
  destruct (bit_set v bit) eqn:Hb; [discriminate|].
  unfold time_sleep at 1. cbv beta iota.
  rewrite IH; [reflexivity|].
  intros K HK. cbn [bus]. rewrite <- Hstep by reflexivity.
  apply Hnone. lia.
Qed.

(** Within [fuel] polls the done bit shows at some poll, or at none. *)
Lemma done_in_time_dec bit :
  forall fuel (d : D),
    (exists K, (K <= fuel)%nat /\ done_at_poll bit K d = true)
    \/ (forall K, (K <= fuel)%nat -> done_at_poll bit K d = false).
Proof.
  induction fuel as [|f IH]; intros d.
  - right. intros K HK. assert (K = 0%nat) by lia. subst. reflexivity.
  - destruct (IH d) as [(K & HK & Hd) | Hnone].
    + left. exists K. split; [lia | exact Hd].
    + destruct (done_at_poll bit (S f) d) eqn:Hlast.
      * left. exists (S f). split; [lia | exact Hlast].
      * right. intros K HK.
        destruct (Nat.eq_dec K (S f)) as [-> | Hne]; [exact Hlast|].
        apply Hnone. lia.
Qed.

(** The done bit shows for the first time at one poll only. *)
Lemma done_at_poll_unique bit :
  forall K1 K2 (d : D),
    done_at_poll bit K1 d = true -> done_at_poll bit K2 d = true -> K1 = K2.
Proof.
  induction K1 as [|k1 IH]; intros K2 d H1 H2; [discriminate|].
  destruct K2 as [|k2]; [discriminate|].
  cbn [done_at_poll] in H1, H2.
  destruct (read_register _MMC5603_STATUS_REG d) as [v d1].
  destruct (bit_set v bit).
  - destruct k1; [|discriminate]. destruct k2; [reflexivity | discriminate].
  - f_equal. eapply IH; eassumption.
Qed.

End Outcomes.

Section Termination.

Context {D : Type} {T : Transport D} {R : Type} {A : Real R}.

Lemma temperature_hangs fuel (w : world D) :
  (forall K, (K <= fuel)%nat -> done_at 0x02 7 K (bus w) = false) ->
  temperature (R := R) fuel w = Hangs.
Proof.
  intros Hnone. unfold temperature, set__ctrl0_reg, _meas_t_done.
  unfold bind at 1. unfold set_register at 1. cbv beta iota.
  unfold bind at 1. rewrite wait_until_hangs; [reflexivity|].
  cbn [bus]. exact Hnone.
Qed.

Lemma magnetic_hangs fuel (w : world D) :
  (forall K, (K <= fuel)%nat -> done_at 0x21 6 K (bus w) = false) ->
  magnetic (R := R) fuel w = Hangs.
Proof.
  intros Hnone. unfold magnetic, set__ctrl0_reg, _meas_m_done.
  unfold bind at 1. unfold set_register at 1. cbv beta iota.
  unfold bind at 1. rewrite wait_until_hangs; [reflexivity|].
  cbn [bus]. exact Hnone.
Qed.

End Termination.

(** X1: a [temperature] read that returns has seen bit 7 of the status
    register at some poll K within the polls it could make and at none
    before; it made exactly those K polls, 5 ms apart, and its value is the
    conversion of the byte then in register 0x09.  So the read cannot return
    before the chip shows the bit, and on a chip that never shows it the
    read returns for no number of polls: the loop of lines 113-114 has no
    bound and no timeout. *)
Theorem temperature_returns_only_when_done :
  forall (D : Type) (T : Transport D) (R : Type) (A : Real R) (w : world D),
    (forall (fuel : nat) (t : R) w',
        temperature fuel w = Returns t w' ->
        exists K,
          (1 <= K <= fuel)%nat
          /\ done_at 0x02 7 K (bus w) = true
          /\ (forall J, (J < K)%nat -> done_at 0x02 7 J (bus w) = false)
          /\ t = celsius (raw_temperature K (bus w))
          /\ clock w' = clock w + 5 * (Z.of_nat K - 1)
          /\ trace w'
             = trace w ++ [RegWrite 0x1B 0x02]
                 ++ poll_events (statuses 0x02 K (bus w))
                 ++ [RegRead 0x09 (raw_temperature K (bus w))])
    /\ ((forall K, done_at 0x02 7 K (bus w) = false) ->
        forall (fuel : nat) (t : R) w', temperature fuel w <> Returns t w').
Proof.
  intros D T R A w.
  assert (Hmain :
            forall (fuel : nat) (t : R) w',
              temperature fuel w = Returns t w' ->
              exists K,
                (1 <= K <= fuel)%nat
                /\ done_at 0x02 7 K (bus w) = true
                /\ (forall J, (J < K)%nat -> done_at 0x02 7 J (bus w) = false)
                /\ t = celsius (raw_temperature K (bus w))
                /\ clock w' = clock w + 5 * (Z.of_nat K - 1)
                /\ trace w'
                   = trace w ++ [RegWrite 0x1B 0x02]
                       ++ poll_events (statuses 0x02 K (bus w))
                       ++ [RegRead 0x09 (raw_temperature K (bus w))]).
  { intros fuel t w' Hret.
    destruct (done_in_time_dec 7 fuel (write_register 0x1B 0x02 (bus w)))
      as [(K & HK & Hdone) | Hnone].
    - pose proof (temperature_run (A := A) K fuel w HK Hdone) as Hrun.
      cbv zeta in Hrun. unfold _MMC5603_CTRL_REG0, _MMC5603_OUT_TEMP in Hrun.
      rewrite Hret in Hrun. injection Hrun as Ht Hw. subst t w'.
      exists K. cbn [clock trace].
      split; [split; [exact (done_at_poll_pos _ _ _ Hdone) | exact HK]|].
      split; [exact Hdone|].
      split; [|repeat split].
      intros J HJ. unfold done_at.
      destruct (done_at_poll 7 J (write_register 27 2 (bus w))) eqn:HJd; [|reflexivity].
      pose proof (done_at_poll_unique 7 J K _ HJd Hdone). lia.
    - rewrite (temperature_hangs (R := R) fuel w Hnone) in Hret. discriminate. }
  split; [exact Hmain|].
  intros Hnever fuel t w' Hret.
  destruct (Hmain fuel t w' Hret) as (K & _ & Hdone & _).
  rewrite Hnever in Hdone. discriminate.
Qed.

(** A chip done at the third poll, read with room for five. *)
Lemma temperature_returns_only_when_done_witness :
  exists (t : float) w',
    temperature 5 (ready (chip 0x10 [] 100 3) (repeat 0 9)) = Returns t w'
    /\ exists K,
         (1 <= K <= 5)%nat
         /\ done_at 0x02 7 K (bus (ready (chip 0x10 [] 100 3) (repeat 0 9))) = true
         /\ (forall J, (J < K)%nat ->
                       done_at 0x02 7 J (bus (ready (chip 0x10 [] 100 3) (repeat 0 9)))
                       = false)
         /\ t = celsius (raw_temperature K (bus (ready (chip 0x10 [] 100 3) (repeat 0 9))))
         /\ clock w'
            = clock (ready (chip 0x10 [] 100 3) (repeat 0 9)) + 5 * (Z.of_nat K - 1)
         /\ trace w'
            = trace (ready (chip 0x10 [] 100 3) (repeat 0 9))
                ++ [RegWrite 0x1B 0x02]
                ++ poll_events
                     (statuses 0x02 K (bus (ready (chip 0x10 [] 100 3) (repeat 0 9))))
                ++ [RegRead 0x09
                      (raw_temperature K
                         (bus (ready (chip 0x10 [] 100 3) (repeat 0 9))))].
Proof.
  assert (Hret : exists (t : float) w',
             temperature 5 (ready (chip 0x10 [] 100 3) (repeat 0 9)) = Returns t w')
    by (eexists; eexists; vm_compute; reflexivity).
  destruct Hret as (t & w' & Hret).
  exists t, w'. split; [exact Hret|].
  exact (proj1 (temperature_returns_only_when_done sim sim_transport float binary64
                  (ready (chip 0x10 [] 100 3) (repeat 0 9)))
           5%nat t w' Hret).
Defined.

(** X2: a [magnetic] read on a constructed driver that returns has seen bit
    6 of the status register at some poll K within the polls it could make
    and at none before; it made exactly those K polls, 5 ms apart, then the
    one block read.  So the read cannot return before the chip shows the
    bit, and on a chip that never shows it the read returns for no number of
    polls (lines 127-128: no bound, no timeout). *)
Theorem magnetic_returns_only_when_done :
  forall (D : Type) (T : Transport D) (R : Type) (A : Real R) (w : world D),
    constructed w ->
    (forall (fuel : nat) (xyz : R * R * R) w',
        magnetic fuel w = Returns xyz w' ->
        exists K,
          (1 <= K <= fuel)%nat
          /\ done_at 0x21 6 K (bus w) = true
          /\ (forall J, (J < K)%nat -> done_at 0x21 6 J (bus w) = false)
          /\ bus w' = after_read_back K (bus w)
          /\ clock w' = clock w + 5 * (Z.of_nat K - 1)
          /\ trace w'
             = trace w ++ [RegWrite 0x1B 0x21]
                 ++ poll_events (statuses 0x21 K (bus w))
                 ++ [WriteThenReadInto [0x00] 9 (read_back K (bus w))])
    /\ ((forall K, done_at 0x21 6 K (bus w) = false) ->
        forall (fuel : nat) (xyz : R * R * R) w', magnetic fuel w <> Returns xyz w').
Proof.
  intros D T R A w (b & Hb & Hlen).
  assert (Hmain :
            forall (fuel : nat) (xyz : R * R * R) w',
              magnetic fuel w = Returns xyz w' ->
              exists K,
                (1 <= K <= fuel)%nat
                /\ done_at 0x21 6 K (bus w) = true
                /\ (forall J, (J < K)%nat -> done_at 0x21 6 J (bus w) = false)
                /\ bus w' = after_read_back K (bus w)
                /\ clock w' = clock w + 5 * (Z.of_nat K - 1)
                /\ trace w'
                   = trace w ++ [RegWrite 0x1B 0x21]
                       ++ poll_events (statuses 0x21 K (bus w))
                       ++ [WriteThenReadInto [0x00] 9 (read_back K (bus w))]).
  { intros fuel xyz w' Hret.
    destruct (done_in_time_dec 6 fuel (write_register 0x1B 0x21 (bus w)))
      as [(K & HK & Hdone) | Hnone].
    - pose proof (magnetic_run (A := A) K fuel w b Hb Hlen HK Hdone) as Hrun.
      cbv zeta in Hrun. unfold _MMC5603_CTRL_REG0 in Hrun.
      rewrite Hret in Hrun. injection Hrun as Hxyz Hw. subst xyz w'.
      exists K. cbn [bus clock trace].
      split; [split; [exact (done_at_poll_pos _ _ _ Hdone) | exact HK]|].
      split; [exact Hdone|].
      split; [|repeat split].
      intros J HJ. unfold done_at.
      destruct (done_at_poll 6 J (write_register 27 33 (bus w))) eqn:HJd; [|reflexivity].
      pose proof (done_at_poll_unique 6 J K _ HJd Hdone). lia.
    - rewrite (magnetic_hangs (R := R) fuel w Hnone) in Hret. discriminate. }
  split; [exact Hmain|].
  intros Hnever fuel xyz w' Hret.
  destruct (Hmain fuel xyz w' Hret) as (K & _ & Hdone & _).
  rewrite Hnever in Hdone. discriminate.
Qed.

(** A chip done at the third poll, read with room for five. *)
Lemma magnetic_returns_only_when_done_witness :
  exists (xyz : float * float * float) w',
    magnetic 5 (ready (chip 0x10 [1; 2; 3; 4; 5; 6; 7; 8; 9] 0 3) (repeat 0 9))
    = Returns xyz w'
    /\ exists K,
         (1 <= K <= 5)%nat
         /\ done_at 0x21 6 K
              (bus (ready (chip 0x10 [1; 2; 3; 4; 5; 6; 7; 8; 9] 0 3) (repeat 0 9)))
            = true
         /\ (forall J, (J < K)%nat ->
                       done_at 0x21 6 J
                         (bus (ready (chip 0x10 [1; 2; 3; 4; 5; 6; 7; 8; 9] 0 3)
                                 (repeat 0 9)))
                       = false)
         /\ bus w'
            = after_read_back K
                (bus (ready (chip 0x10 [1; 2; 3; 4; 5; 6; 7; 8; 9] 0 3) (repeat 0 9)))
         /\ clock w'
            = clock (ready (chip 0x10 [1; 2; 3; 4; 5; 6; 7; 8; 9] 0 3) (repeat 0 9))
              + 5 * (Z.of_nat K - 1)
         /\ trace w'
            = trace (ready (chip 0x10 [1; 2; 3; 4; 5; 6; 7; 8; 9] 0 3) (repeat 0 9))
                ++ [RegWrite 0x1B 0x21]
                ++ poll_events
                     (statuses 0x21 K
                        (bus (ready (chip 0x10 [1; 2; 3; 4; 5; 6; 7; 8; 9] 0 3)
                                (repeat 0 9))))
                ++ [WriteThenReadInto [0x00] 9
                      (read_back K
                         (bus (ready (chip 0x10 [1; 2; 3; 4; 5; 6; 7; 8; 9] 0 3)
                                 (repeat 0 9))))].
Proof.
  assert (Hret : exists (xyz : float * float * float) w',
             magnetic 5 (ready (chip 0x10 [1; 2; 3; 4; 5; 6; 7; 8; 9] 0 3) (repeat 0 9))
             = Returns xyz w')
    by (eexists; eexists; vm_compute; reflexivity).
  destruct Hret as (xyz & w' & Hret).
  exists xyz, w'. split; [exact Hret|].
  exact (proj1 (magnetic_returns_only_when_done sim sim_transport float binary64
                  (ready (chip 0x10 [1; 2; 3; 4; 5; 6; 7; 8; 9] 0 3) (repeat 0 9))
                  (ex_intro _ (repeat 0 9) (conj eq_refl eq_refl)))
           5%nat xyz w' Hret).
Defined.

(** ** Call sequences *)

Lemma protocol_run_app es1 :
  forall p es2,
    protocol_run p (es1 ++ es2)
    = match protocol_run p es1 with
      | Some p' => protocol_run p' es2
      | None => None
      end.
Proof.
  induction es1 as [|e es1 IH]; intros p es2; [reflexivity|].
  cbn [app protocol_run]. destruct (protocol_step p e); [apply IH | reflexivity].
Qed.

Lemma protocol_polls bit v rest :
  bit_set v bit = true ->
  forall vs,
    Forall (fun u => bit_set u bit = false) vs ->
    protocol_run (Polling bit) (poll_events (vs ++ [v]) ++ rest)
    = protocol_run (Ready bit) rest.
Proof.
  intros Hset. induction vs as [|u vs IH]; intros Hclear.
  - cbn. now rewrite Hset.
  - inversion Hclear as [|? ? Hu Hvs]; subst.
    cbn [app]. rewrite poll_events_cons by (destruct vs; discriminate).
    cbn [app protocol_run protocol_step].
    change (_MMC5603_STATUS_REG =? 24) with true. cbv iota.
    rewrite Hu. change (5 =? 5) with true. cbv iota.
    apply IH. exact Hvs.
Qed.

Section Sessions.

Context {D : Type} {T : Transport D} {R : Type} {A : Real R}.

Lemma temperature_well_behaved fuel (w : world D) :
  constructed w -> well_behaved w (temperature (R := R) fuel w).
Proof.
  intros Hc.
  destruct (done_in_time_dec 7 fuel (write_register 0x1B 0x02 (bus w)))
    as [(K & HK & Hdone) | Hnone].
  - right.
    pose proof (temperature_run (A := A) K fuel w HK Hdone) as Hrun.
    cbv zeta in Hrun. unfold _MMC5603_CTRL_REG0, _MMC5603_OUT_TEMP in Hrun.
    destruct (done_at_poll_statuses 7 K _ Hdone) as (vs & v & Hst & _ & Hclear & Hset).
    eexists. eexists. eexists. split; [exact Hrun|]. cbn [trace self].
    split; [reflexivity|]. split; [|split; [exact Hc | reflexivity]].
    rewrite Hst. cbn [protocol_run protocol_step]. cbn [Z.eqb Pos.eqb andb].
    rewrite protocol_polls by assumption. reflexivity.
  - left. apply temperature_hangs. exact Hnone.
Qed.

Lemma magnetic_well_behaved fuel (w : world D) :
  constructed w -> well_behaved w (magnetic (R := R) fuel w).
Proof.
  intros (b & Hb & Hlen).
  destruct (done_in_time_dec 6 fuel (write_register 0x1B 0x21 (bus w)))
    as [(K & HK & Hdone) | Hnone].
  - right.
    pose proof (magnetic_run (A := A) K fuel w b Hb Hlen HK Hdone) as Hrun.
    cbv zeta in Hrun. unfold _MMC5603_CTRL_REG0 in Hrun.
    destruct (done_at_poll_statuses 6 K _ Hdone) as (vs & v & Hst & _ & Hclear & Hset).
    eexists. eexists. eexists. split; [exact Hrun|]. cbn [trace self i2c_device].
    split; [reflexivity|]. split; [|split; [|reflexivity]].
    + rewrite Hst. cbn [protocol_run protocol_step]. cbn [Z.eqb Pos.eqb andb].
      rewrite protocol_polls by assumption. reflexivity.
    + eexists. split; [reflexivity|].
      rewrite fill_length. cbn [length]. rewrite length_skipn. lia.
  - left. apply magnetic_hangs. exact Hnone.
Qed.

Lemma reset_well_behaved (w : world D) :
  constructed w -> well_behaved w (reset w).
Proof.
  intros Hc. right. eexists. eexists. eexists.
  split; [apply reset_run|]. cbn [trace self].
  split; [reflexivity|]. split; [reflexivity|]. split; [exact Hc | reflexivity].
Qed.

Lemma perform_well_behaved fuel c (w : world D) :
  constructed w -> well_behaved w (perform (R := R) fuel c w).
Proof.
  intros Hc. destruct c; cbn [perform]; unfold bind.
  - destruct (reset_well_behaved w Hc) as [Hh | (x & w' & es & Hr & Hrest)].
    + rewrite Hh. now left.
    + rewrite Hr. right. eexists. eexists. eexists. split; [reflexivity | exact Hrest].
  - destruct (temperature_well_behaved fuel w Hc) as [Hh | (x & w' & es & Hr & Hrest)].
    + rewrite Hh. now left.
    + rewrite Hr. right. eexists. eexists. eexists. split; [reflexivity | exact Hrest].
  - destruct (magnetic_well_behaved fuel w Hc) as [Hh | (x & w' & es & Hr & Hrest)].
    + rewrite Hh. now left.
    + rewrite Hr. right. eexists. eexists. eexists. split; [reflexivity | exact Hrest].
Qed.

Lemma session_outcome fuel cs :
  forall (w : world D),
    constructed w ->
    session (R := R) fuel cs w = Hangs
    \/ exists rs w' es,
         session (R := R) fuel cs w = Returns rs w'
         /\ length rs = length cs
         /\ trace w' = trace w ++ es
         /\ protocol_run Idle es = Some Idle
         /\ constructed w'
         /\ i2c_device (self w') = i2c_device (self w).
Proof.
  induction cs as [|c cs IH]; intros w Hc.
  - right. exists [], w, []. cbn. rewrite app_nil_r. repeat split; auto.
  - cbn [session]. unfold bind, ret.
    destruct (perform_well_behaved fuel c w Hc)
      as [Hh | (r & w1 & es1 & Hr & Htr1 & Hp1 & Hc1 & Ha1)].
    + rewrite Hh. now left.
    + rewrite Hr.
      destruct (IH w1 Hc1) as [Hh | (rs & w2 & es2 & Hs & Hlen & Htr2 & Hp2 & Hc2 & Ha2)].
      * rewrite Hh. now left.
      * rewrite Hs. right. exists (r :: rs), w2, (es1 ++ es2).
        split; [reflexivity|]. split; [cbn [length]; now rewrite Hlen|].
        split; [now rewrite Htr2, Htr1, <- app_assoc|].
        split; [now rewrite protocol_run_app, Hp1|].
        split; [exact Hc2 | now rewrite Ha2].
Qed.

End Sessions.

(** *** What an accepted trace looks like *)

Lemma protocol_reaches_ready bit :
  forall es p,
    protocol_run p es = Some (Ready bit) ->
    (es = [] /\ p = Ready bit)
    \/ exists es0 v, es = es0 ++ [RegRead 0x18 v] /\ bit_set v bit = true.
Proof.
  induction es as [|e es IH] using rev_ind; intros p Hrun.
  - left. cbn in Hrun. split; [reflexivity | congruence].
  - right. rewrite protocol_run_app in Hrun.
    destruct (protocol_run p es) as [p0|]; [|discriminate].
    cbn [protocol_run] in Hrun.
    destruct (protocol_step p0 e) as [p1|] eqn:Hstep; [|discriminate].
    injection Hrun as ->.
    destruct p0, e; cbn in Hstep; try discriminate;
      repeat match type of Hstep with
             | (if ?c then _ else _) = _ => destruct c eqn:?; try discriminate
             | context [match ?l with [] => _ | _ :: _ => _ end] =>
                 destruct l; try discriminate
             end.
    injection Hstep as Hp.
    destruct (bit_set value bit0) eqn:Hb; [|discriminate].
    injection Hp as ->.
    exists es, value. split; [|exact Hb].
    f_equal. f_equal. f_equal. now apply Z.eqb_eq.
Qed.

Lemma accepted_write es1 a v es2 q :
  protocol_run Idle (es1 ++ RegWrite a v :: es2) = Some q ->
  (a = 0x1C /\ v = 0x80) \/ (a = 0x1B /\ v = 0x02) \/ (a = 0x1B /\ v = 0x21).
Proof.
  rewrite protocol_run_app.
  destruct (protocol_run Idle es1) as [p|]; [|discriminate].
  cbn [protocol_run].
  destruct p; cbn [protocol_step]; try discriminate.
  destruct ((a =? 28) && (v =? 128)) eqn:H1.
  { apply andb_prop in H1 as [Ha Hv]. apply Z.eqb_eq in Ha, Hv. auto. }
  destruct ((a =? 27) && (v =? 2)) eqn:H2.
  { apply andb_prop in H2 as [Ha Hv]. apply Z.eqb_eq in Ha, Hv. auto. }
  destruct ((a =? 27) && (v =? 33)) eqn:H3; [|discriminate].
  apply andb_prop in H3 as [Ha Hv]. apply Z.eqb_eq in Ha, Hv. auto.
Qed.

Lemma accepted_read es1 a x es2 q :
  protocol_run Idle (es1 ++ RegRead a x :: es2) = Some q ->
  a = 0x18
  \/ (a = 0x09 /\ exists es0 v, es1 = es0 ++ [RegRead 0x18 v] /\ bit_set v 7 = true).
Proof.
  rewrite protocol_run_app.
  destruct (protocol_run Idle es1) as [p|] eqn:Hrun; [|discriminate].
  cbn [protocol_run].
  destruct p; cbn [protocol_step]; try discriminate.
  - destruct (a =? 24) eqn:Ha; [|discriminate]. apply Z.eqb_eq in Ha. auto.
  - destruct ((bit =? 7) && (a =? 9)) eqn:Hc; [|discriminate].
    apply andb_prop in Hc as [Hbit Ha]. apply Z.eqb_eq in Hbit, Ha. subst bit.
    intros _. right. split; [exact Ha|].
    destruct (protocol_reaches_ready 7 es1 Idle Hrun) as [[_ Hp] | Hex];
      [discriminate | exact Hex].
Qed.

Lemma accepted_block_read es1 out n data es2 q :
  protocol_run Idle (es1 ++ WriteThenReadInto out n data :: es2) = Some q ->
  out = [0x00] /\ n = 9%nat
  /\ exists es0 v, es1 = es0 ++ [RegRead 0x18 v] /\ bit_set v 6 = true.
Proof.
  rewrite protocol_run_app.
  destruct (protocol_run Idle es1) as [p|] eqn:Hrun; [|discriminate].
  cbn [protocol_run].
  destruct p; cbn [protocol_step]; try discriminate.
  destruct out as [|o [|o' out]]; try discriminate.
  destruct ((bit =? 6) && (o =? 0) && (n =? 9)%nat) eqn:Hc; [|discriminate].
  apply andb_prop in Hc as [Hc Hn]. apply andb_prop in Hc as [Hbit Ho].
  apply Z.eqb_eq in Hbit, Ho. apply Nat.eqb_eq in Hn. subst.
  intros _. split; [reflexivity|]. split; [reflexivity|].
  destruct (protocol_reaches_ready 6 es1 Idle Hrun) as [[_ Hp] | Hex];
    [discriminate | exact Hex].
Qed.

(** X3: when a sequence of [reset()], [temperature] and [magnetic] calls
    on a constructed driver returns, it has yielded one value per call and
    the object is still constructed: the buffer is still 9 bytes long,
    whatever the block reads delivered, and the device address is the one it
    had. *)
Theorem session_keeps_object :
  forall (D : Type) (T : Transport D) (R : Type) (A : Real R)
         (fuel : nat) (cs : list call) (w : world D)
         (rs : list (reading R)) w',
    constructed w ->
    session fuel cs w = Returns rs w' ->
    length rs = length cs
    /\ constructed w'
    /\ (exists b, _buffer (self w') = Some b /\ length b = 9%nat)
    /\ i2c_device (self w') = i2c_device (self w).
Proof.
  intros D T R A fuel cs w rs w' Hc Hret.
  destruct (session_outcome (A := A) fuel cs w Hc)
    as [Hh | (rs0 & w0 & es & Hs & Hlen & _ & _ & Hc' & Ha)].
  - rewrite Hh in Hret. discriminate.
  - rewrite Hs in Hret. injection Hret as Hrs Hw. subst rs0 w0.
    split; [exact Hlen|]. split; [exact Hc'|]. split; [exact Hc' | exact Ha].
Qed.

(** The loop body of the example program, twice, with a reset between,
    on the simulated chip: it returns five values. *)
Lemma session_keeps_object_witness :
  exists (rs : list (reading float)) w',
    session 3 [Magnetic; Temperature; Reset; Magnetic; Temperature]
      (ready (chip 0x10 [1; 2; 3; 4; 5; 6; 7; 8; 9] 40 3) (repeat 0 9))
    = Returns rs w'
    /\ length rs = length [Magnetic; Temperature; Reset; Magnetic; Temperature]
    /\ constructed w'
    /\ (exists b, _buffer (self w') = Some b /\ length b = 9%nat)
    /\ i2c_device (self w')
       = i2c_device (self (ready (chip 0x10 [1; 2; 3; 4; 5; 6; 7; 8; 9] 40 3)
                             (repeat 0 9))).
Proof.
  assert (Hret : exists (rs : list (reading float)) w',
             session 3 [Magnetic; Temperature; Reset; Magnetic; Temperature]
               (ready (chip 0x10 [1; 2; 3; 4; 5; 6; 7; 8; 9] 40 3) (repeat 0 9))
             = Returns rs w')
    by (eexists; eexists; vm_compute; reflexivity).
  destruct Hret as (rs & w' & Hret).
  exists rs, w'. split; [exact Hret|].
  exact (session_keeps_object sim sim_transport float binary64 3%nat
           [Magnetic; Temperature; Reset; Magnetic; Temperature]
           (ready (chip 0x10 [1; 2; 3; 4; 5; 6; 7; 8; 9] 40 3) (repeat 0 9))
           rs w' (ex_intro _ (repeat 0 9) (conj eq_refl eq_refl)) Hret).
Defined.

(** X4: in everything a returning sequence of calls on a constructed driver
    does on the bus, the only register writes are 0x80 to control register 1
    and 0x02 or 0x21 to control register 0; the temperature register 0x09
    is read only right after a status poll that showed bit 7, and the block
    read (one address byte 0x00 out, 9 bytes in) is made only right after a
    status poll that showed bit 6; no other register is read. *)
Theorem session_reads_data_only_when_done :
  forall (D : Type) (T : Transport D) (R : Type) (A : Real R)
         (fuel : nat) (cs : list call) (w : world D),
    constructed w ->
    session (R := R) fuel cs w = Hangs
    \/ exists rs w' es,
         session (R := R) fuel cs w = Returns rs w'
         /\ trace w' = trace w ++ es
         /\ (forall es1 a v es2,
                es = es1 ++ RegWrite a v :: es2 ->
                (a = 0x1C /\ v = 0x80) \/ (a = 0x1B /\ v = 0x02)
                \/ (a = 0x1B /\ v = 0x21))
         /\ (forall es1 a x es2,
                es = es1 ++ RegRead a x :: es2 ->
                a = 0x18
                \/ (a = 0x09
                    /\ exists es0 v,
                         es1 = es0 ++ [RegRead 0x18 v] /\ bit_set v 7 = true))
         /\ (forall es1 out n data es2,
                es = es1 ++ WriteThenReadInto out n data :: es2 ->
                out = [0x00] /\ n = 9%nat
                /\ exists es0 v,
                     es1 = es0 ++ [RegRead 0x18 v] /\ bit_set v 6 = true).
Proof.
  intros D T R A fuel cs w Hc.
  destruct (session_outcome (A := A) fuel cs w Hc)
    as [Hh | (rs & w' & es & Hs & _ & Htr & Hp & _ & _)]; [now left|].
  right. exists rs, w', es. split; [exact Hs|]. split; [exact Htr|].
  split; [|split].
  - intros es1 a v es2 ->. eapply accepted_write. exact Hp.
  - intros es1 a x es2 ->. eapply accepted_read. exact Hp.
  - intros es1 out n data es2 ->. eapply accepted_block_read. exact Hp.
Qed.

(** The same session on the simulated chip. *)
Lemma session_reads_data_only_when_done_witness :
  exists (rs : list (reading float)) w' es,
    session 3 [Magnetic; Temperature; Reset; Magnetic; Temperature]
      (ready (chip 0x10 [1; 2; 3; 4; 5; 6; 7; 8; 9] 40 3) (repeat 0 9))
    = Returns rs w'
    /\ trace w'
       = trace (ready (chip 0x10 [1; 2; 3; 4; 5; 6; 7; 8; 9] 40 3) (repeat 0 9)) ++ es
    /\ (forall es1 a v es2,
           es = es1 ++ RegWrite a v :: es2 ->
           (a = 0x1C /\ v = 0x80) \/ (a = 0x1B /\ v = 0x02)
           \/ (a = 0x1B /\ v = 0x21))
    /\ (forall es1 a x es2,
           es = es1 ++ RegRead a x :: es2 ->
           a = 0x18
           \/ (a = 0x09
               /\ exists es0 v,
                    es1 = es0 ++ [RegRead 0x18 v] /\ bit_set v 7 = true))
    /\ (forall es1 out n data es2,
           es = es1 ++ WriteThenReadInto out n data :: es2 ->
           out = [0x00] /\ n = 9%nat
           /\ exists es0 v,
                es1 = es0 ++ [RegRead 0x18 v] /\ bit_set v 6 = true).
Proof.
  destruct (session_reads_data_only_when_done sim sim_transport float binary64 3%nat
              [Magnetic; Temperature; Reset; Magnetic; Temperature]
              (ready (chip 0x10 [1; 2; 3; 4; 5; 6; 7; 8; 9] 40 3) (repeat 0 9))
              (ex_intro _ (repeat 0 9) (conj eq_refl eq_refl)))
    as [Hh | Hr].
  - exfalso. vm_compute in Hh. discriminate Hh.
  - exact Hr.
Defined.

(** X5: reading [data_rate], [performance_mode] or [operation_mode] raises
    AttributeError on every object the driver's own code can produce: the
    attributes the getters return are assigned nowhere (the accessor block
    of lines 80-85 is a string literal, the assignments of lines 95-99 are
    comments, and the setters raise before assigning).  Nothing is done on
    the bus. *)
Theorem configuration_getters_raise :
  forall (D : Type) (V : Type) (read_attribute : string -> M D V) (w : world D),
    get_data_rate V read_attribute w
    = Raises (AttributeError "'MMC5603' object has no attribute '_data_rate'") w
    /\ get_performance_mode V read_attribute w
       = Raises (AttributeError "'MMC5603' object has no attribute '_perf_mode'") w
    /\ get_operation_mode V read_attribute w
       = Raises (AttributeError "'MMC5603' object has no attribute '_operation_mode'") w.
Proof.
  intros D V read_attribute w.
  unfold get_data_rate, get_performance_mode, get_operation_mode, getattr_self,
    has_attribute, instance_attributes.
  destruct (_buffer (self w)); repeat split; reflexivity.
Qed.

(** ** Numbers beyond the claims *)

Lemma all_from_spec P :
  forall n z,
    all_from n z P = true ->
    forall i, z <= i < z + Z.of_nat n -> P i = true.
Proof.
  induction n as [|n IH]; intros z Hall i Hi; [lia|].
  cbn [all_from] in Hall. destruct (P z) eqn:Hz; [|discriminate].
  destruct (Z.eq_dec i z) as [-> | Hne]; [exact Hz|].
  apply (IH (z + 1) Hall). lia.
Qed.

Lemma land_shiftl_low a b n :
  0 <= n -> 0 <= b < 2 ^ n -> Z.land (Z.shiftl a n) b = 0.
Proof.
  intros Hn Hb. apply Z.bits_inj'. intros i Hi.
  rewrite Z.land_spec, Z.bits_0.
  destruct (Z.lt_ge_cases i n) as [Hlt | Hge].
  - rewrite Z.shiftl_spec_low by exact Hlt. reflexivity.
  - assert (Z.testbit b i = false) as ->; [|apply andb_false_r].
    destruct (Z.eq_dec b 0) as [-> | Hb0]; [apply Z.bits_0|].
    apply Z.bits_above_log2; [lia|].
    assert (Z.log2 b < n) by (apply Z.log2_lt_pow2; lia). lia.
Qed.

Lemma lor_shiftl_low a b n :
  0 <= n -> 0 <= b < 2 ^ n -> Z.lor (Z.shiftl a n) b = a * 2 ^ n + b.
Proof.
  intros Hn Hb.
  rewrite <- Z.lxor_lor, <- Z.add_nocarry_lxor by (apply land_shiftl_low; assumption).
  now rewrite Z.shiftl_mul_pow2.
Qed.

(** The three bit fields do not overlap: packing is a sum. *)
Lemma packed_sum high mid low :
  is_byte mid -> is_byte low ->
  packed high mid low = high * 4096 + mid * 16 + low / 16.
Proof.
  unfold is_byte, packed. intros Hm Hl.
  rewrite (Z.shiftl_mul_pow2 mid 4), Z.shiftr_div_pow2 by lia.
  change (2 ^ 4) with 16.
  rewrite (lor_shiftl_low high (mid * 16) 12) by lia.
  change (2 ^ 12) with 4096.
  replace (high * 4096 + mid * 16) with (Z.shiftl (high * 256 + mid) 4)
    by (rewrite Z.shiftl_mul_pow2 by lia; change (2 ^ 4) with 16; lia).
  assert (0 <= low / 16 < 16)
    by (split; [apply Z.div_pos; lia | apply Z.div_lt_upper_bound; lia]).
  rewrite lor_shiftl_low by (change (2 ^ 4) with 16; lia).
  rewrite Z.shiftl_mul_pow2 by lia. change (2 ^ 4) with 16. lia.
Qed.

Lemma exact_axis high mid low :
  is_byte high -> is_byte mid -> is_byte low ->
  exact_axis_facts high mid low (@axis_uT Q exact high mid low).
Proof.
  intros Hh Hm Hl. unfold exact_axis_facts.
  assert (Hx : @axis_uT Q exact high mid low
               = (inject_Z (high * 4096 + mid * 16 + low / 16 - 524288)
                  * (625 # 100000))%Q).
  { unfold axis_uT. cbn [real_mul of_int lit_0_00625 exact].
    change (Z.lor (Z.lor (Z.shiftl high 12) (Z.shiftl mid 4)) (Z.shiftr low 4))
      with (packed high mid low).
    rewrite packed_sum by assumption. reflexivity. }
  rewrite Hx. clear Hx. unfold is_byte in *.
  assert (0 <= low / 16 < 16)
    by (split; [apply Z.div_pos; lia | apply Z.div_lt_upper_bound; lia]).
  split; [reflexivity|]. split.
  - unfold Qlt. cbn. lia.
  - unfold Qeq. cbn. split.
    + intros H0. assert (low / 16 = 0) by lia.
      assert (low < 16).
      { destruct (Z.lt_ge_cases low 16) as [|Hge]; [assumption|].
        pose proof (Z.div_le_mono 16 low 16 ltac:(lia) Hge) as Hd.
        change (16 / 16) with 1 in Hd. lia. }
      lia.
    + intros (-> & -> & Hlow). rewrite Z.div_small by lia. reflexivity.
Qed.

Lemma binary64_codes_checked : all_from 1048576 0 binary64_code_ok = true.
Proof. vm_compute. reflexivity. Qed.

Lemma binary64_axis high mid low :
  is_byte high -> is_byte mid -> is_byte low ->
  binary64_axis_facts high mid low (@axis_uT float binary64 high mid low).
Proof.
  intros Hh Hm Hl.
  pose proof (packed_range high mid low Hh Hm Hl) as Hp.
  pose proof (packed_sum high mid low Hm Hl) as Hsum.
  change (2 ^ 20 - 1) with 1048575 in Hp.
  pose proof (all_from_spec binary64_code_ok _ _ binary64_codes_checked
                (packed high mid low)) as Hok.
  specialize (Hok ltac:(change (Z.of_nat 1048576) with 1048576; lia)).
  unfold binary64_code_ok in Hok. cbv zeta in Hok.
  change (@axis_uT float binary64 high mid low)
    with (@code_uT float binary64 (packed high mid low)).
  apply andb_prop in Hok as [Hok Hnext].
  apply andb_prop in Hok as [Hok Hzero].
  apply andb_prop in Hok as [Hok Hsign].
  apply andb_prop in Hok as [Hlo Hhi].
  apply Bool.eqb_prop in Hzero, Hsign.
  unfold binary64_axis_facts. repeat split; try assumption.
  - rewrite Hsign. unfold is_byte in *.
    assert (0 <= low / 16 < 16)
      by (split; [apply Z.div_pos; lia | apply Z.div_lt_upper_bound; lia]).
    destruct (Z.ltb_spec (packed high mid low) 524288);
      destruct (Z.ltb_spec high 128); try reflexivity; lia.
  - intros Hlt. apply orb_prop in Hnext as [Hlast | Hnext]; [|exact Hnext].
    apply Z.eqb_eq in Hlast. lia.
Qed.

Lemma binary64_celsius_checked :
  all_from 256 0
    (fun r =>
       PrimFloat.leb (-75)%float (@celsius float binary64 r)
       && PrimFloat.leb (@celsius float binary64 r) 129%float
       && match Q_of_float (@celsius float binary64 r) with
          | Some q =>
              Qle_bool (Qabs (q - ((8 # 10) * inject_Z r - 75))) (1 # 2 ^ 45)
          | None => false
          end) = true.
Proof. vm_compute. reflexivity. Qed.

Lemma binary64_celsius_increasing_checked :
  all_from 256 0
    (fun a =>
       all_from 256 0
         (fun b =>
            implb (a <? b)
              (PrimFloat.ltb (@celsius float binary64 a) (@celsius float binary64 b))))
  = true.
Proof. vm_compute. reflexivity. Qed.

Lemma temperature_value {D : Type} {T : Transport D} {R : Type} {A : Real R}
      K fuel (w : world D) raw :
  (K <= fuel)%nat ->
  done_at 0x02 7 K (bus w) = true ->
  raw_temperature K (bus w) = raw ->
  exists w', temperature fuel w = Returns (celsius raw) w'.
Proof.
  intros Hfuel Hdone Hraw.
  pose proof (temperature_run (A := A) K fuel w Hfuel Hdone) as Hrun.
  cbv zeta in Hrun.
  change (fst (read_register _MMC5603_OUT_TEMP
                 (snd (poll_run K (write_register _MMC5603_CTRL_REG0 2 (bus w))))))
    with (raw_temperature K (bus w)) in Hrun.
  rewrite Hraw in Hrun. eexists. exact Hrun.
Qed.

Lemma magnetic_value {D : Type} {T : Transport D} {R : Type} {A : Real R}
      K fuel (w : world D) b b0 b1 b2 b3 b4 b5 b6 b7 b8 :
  _buffer (self w) = Some b ->
  length b = 9%nat ->
  (K <= fuel)%nat ->
  done_at 0x21 6 K (bus w) = true ->
  read_back K (bus w) = [b0; b1; b2; b3; b4; b5; b6; b7; b8] ->
  exists w',
    magnetic fuel w
    = Returns (axis_uT b0 b1 b6, axis_uT b2 b3 b7, axis_uT b4 b5 b8) w'.
Proof.
  intros Hb Hlen Hfuel Hdone Hrb.
  assert (H9 : length (read_back K (bus w)) = 9%nat) by (rewrite Hrb; reflexivity).
  pose proof (magnetic_reads_back (A := A) K fuel w b Hb Hlen Hfuel Hdone H9) as Hrun.
  cbv zeta in Hrun. rewrite Hrb in Hrun. cbn [nth] in Hrun.
  eexists. exact Hrun.
Qed.

(** X6: for every raw byte 0..255 the binary64 value [temperature] returns
    lies between -75.0 and 129.0 and is within 2^-45 degrees of the exact
    0.8 * raw - 75. *)
Theorem temperature_binary64_range_and_error :
  forall (D : Type) (T : Transport D) (K fuel : nat) (w : world D) (raw : Z),
    0 <= raw <= 255 ->
    (K <= fuel)%nat ->
    done_at 0x02 7 K (bus w) = true ->
    raw_temperature K (bus w) = raw ->
    exists (t : float) w' (q : Q),
      temperature (R := float) fuel w = Returns t w'
      /\ PrimFloat.leb (-75)%float t = true
      /\ PrimFloat.leb t 129%float = true
      /\ Q_of_float t = Some q
      /\ (Qabs (q - ((8 # 10) * inject_Z raw - 75)) <= 1 # 2 ^ 45)%Q.
Proof.
  intros D T K fuel w raw Hraw Hfuel Hdone Hreg.
  destruct (temperature_value (A := binary64) K fuel w raw Hfuel Hdone Hreg) as [w' Hrun].
  pose proof (all_from_spec _ _ _ binary64_celsius_checked raw
                ltac:(change (Z.of_nat 256) with 256; lia)) as Hok.
  cbv beta in Hok.
  apply andb_prop in Hok as [Hok Hq]. apply andb_prop in Hok as [Hlo Hhi].
  destruct (Q_of_float (@celsius float binary64 raw)) as [q|] eqn:HQ; [|discriminate].
  exists (celsius raw), w', q.
  split; [exact Hrun|]. split; [exact Hlo|]. split; [exact Hhi|].
  split; [exact HQ|]. apply Qle_bool_iff. exact Hq.
Qed.

(** A chip whose temperature register holds 254. *)
Lemma temperature_binary64_range_and_error_witness :
  exists (t : float) w' (q : Q),
    temperature (R := float) 2 (ready (chip 0x10 [] 254 2) (repeat 0 9)) = Returns t w'
    /\ PrimFloat.leb (-75)%float t = true
    /\ PrimFloat.leb t 129%float = true
    /\ Q_of_float t = Some q
    /\ (Qabs (q - ((8 # 10) * inject_Z 254 - 75)) <= 1 # 2 ^ 45)%Q.
Proof.
  apply (temperature_binary64_range_and_error sim sim_transport 2%nat 2%nat
           (ready (chip 0x10 [] 254 2) (repeat 0 9)) 254).
  - lia.
  - lia.
  - vm_compute. reflexivity.
  - vm_compute. reflexivity.
Defined.

(** X7: a larger raw byte gives a strictly larger binary64 temperature: of
    two reads, the one whose raw byte is larger returns the larger value. *)
Theorem temperature_increases_with_raw :
  forall (D : Type) (T : Transport D) (K1 K2 fuel : nat) (w1 w2 : world D)
         (r1 r2 : Z),
    0 <= r1 ->
    r1 < r2 ->
    r2 <= 255 ->
    (K1 <= fuel)%nat ->
    (K2 <= fuel)%nat ->
    done_at 0x02 7 K1 (bus w1) = true ->
    done_at 0x02 7 K2 (bus w2) = true ->
    raw_temperature K1 (bus w1) = r1 ->
    raw_temperature K2 (bus w2) = r2 ->
    exists (t1 t2 : float) w1' w2',
      temperature (R := float) fuel w1 = Returns t1 w1'
      /\ temperature (R := float) fuel w2 = Returns t2 w2'
      /\ PrimFloat.ltb t1 t2 = true.
Proof.
  intros D T K1 K2 fuel w1 w2 r1 r2 H0 Hlt H255 Hf1 Hf2 Hd1 Hd2 Hr1 Hr2.
  destruct (temperature_value (A := binary64) K1 fuel w1 r1 Hf1 Hd1 Hr1) as [w1' Hrun1].
  destruct (temperature_value (A := binary64) K2 fuel w2 r2 Hf2 Hd2 Hr2) as [w2' Hrun2].
  exists (celsius r1), (celsius r2), w1', w2'.
  split; [exact Hrun1|]. split; [exact Hrun2|].
  pose proof (all_from_spec _ _ _ binary64_celsius_increasing_checked r1
                ltac:(change (Z.of_nat 256) with 256; lia)) as Hrow.
  cbv beta in Hrow.
  pose proof (all_from_spec _ _ _ Hrow r2
                ltac:(change (Z.of_nat 256) with 256; lia)) as Hcell.
  cbv beta in Hcell.
  assert (Hb : (r1 <? r2) = true) by (apply Z.ltb_lt; exact Hlt).
  rewrite Hb in Hcell. exact Hcell.
Qed.

(** Raw bytes 100 and 101 on two chips. *)
Lemma temperature_increases_with_raw_witness :
  exists (t1 t2 : float) w1' w2',
    temperature (R := float) 3 (ready (chip 0x10 [] 100 1) (repeat 0 9)) = Returns t1 w1'
    /\ temperature (R := float) 3 (ready (chip 0x10 [] 101 3) (repeat 0 9)) = Returns t2 w2'
    /\ PrimFloat.ltb t1 t2 = true.
Proof.
  apply (temperature_increases_with_raw sim sim_transport 1%nat 3%nat 3%nat
           (ready (chip 0x10 [] 100 1) (repeat 0 9))
           (ready (chip 0x10 [] 101 3) (repeat 0 9)) 100 101).
  - lia.
  - lia.
  - lia.
  - lia.
  - lia.
  - vm_compute. reflexivity.
  - vm_compute. reflexivity.
  - vm_compute. reflexivity.
  - vm_compute. reflexivity.
Defined.

(** X8: the low nibbles of buffer bytes 6, 7 and 8 never reach the result:
    two reads whose read-back bytes agree except in those nibbles return the
    same (X, Y, Z), in binary64 as in exact arithmetic. *)
Theorem magnetic_ignores_low_nibbles :
  forall (D : Type) (T : Transport D) (R : Type) (A : Real R)
         (K1 K2 fuel : nat) (w1 w2 : world D) (u1 u2 : list Z)
         (b0 b1 b2 b3 b4 b5 l6 l7 l8 c6 c7 c8 : Z),
    _buffer (self w1) = Some u1 ->
    length u1 = 9%nat ->
    _buffer (self w2) = Some u2 ->
    length u2 = 9%nat ->
    (K1 <= fuel)%nat ->
    (K2 <= fuel)%nat ->
    done_at 0x21 6 K1 (bus w1) = true ->
    done_at 0x21 6 K2 (bus w2) = true ->
    read_back K1 (bus w1) = [b0; b1; b2; b3; b4; b5; l6; l7; l8] ->
    read_back K2 (bus w2) = [b0; b1; b2; b3; b4; b5; c6; c7; c8] ->
    l6 / 16 = c6 / 16 ->
    l7 / 16 = c7 / 16 ->
    l8 / 16 = c8 / 16 ->
    exists (xyz : R * R * R) w1' w2',
      magnetic fuel w1 = Returns xyz w1'
      /\ magnetic fuel w2 = Returns xyz w2'.
Proof.
  intros D T R A K1 K2 fuel w1 w2 u1 u2 b0 b1 b2 b3 b4 b5 l6 l7 l8 c6 c7 c8
         Hu1 Hn1 Hu2 Hn2 Hf1 Hf2 Hd1 Hd2 Hr1 Hr2 H6 H7 H8.
  destruct (magnetic_value (A := A) K1 fuel w1 u1 _ _ _ _ _ _ _ _ _ Hu1 Hn1 Hf1 Hd1 Hr1)
    as [w1' Hrun1].
  destruct (magnetic_value (A := A) K2 fuel w2 u2 _ _ _ _ _ _ _ _ _ Hu2 Hn2 Hf2 Hd2 Hr2)
    as [w2' Hrun2].
  eexists. exists w1', w2'. split; [exact Hrun1|].
  rewrite Hrun2. unfold axis_uT.
  rewrite !Z.shiftr_div_pow2 by lia. change (2 ^ 4) with 16.
  rewrite H6, H7, H8. reflexivity.
Qed.

(** Two chips whose low bytes differ in the low nibble only. *)
Lemma magnetic_ignores_low_nibbles_witness :
  exists (xyz : float * float * float) w1' w2',
    magnetic 2 (ready (chip 0x10 [0x81; 2; 0x7F; 4; 0x80; 6; 0x70; 0x80; 0x90] 0 2)
                  (repeat 0 9))
    = Returns xyz w1'
    /\ magnetic 2 (ready (chip 0x10 [0x81; 2; 0x7F; 4; 0x80; 6; 0x7F; 0x85; 0x9A] 0 1)
                     (repeat 0 9))
       = Returns xyz w2'.
Proof.
  apply (magnetic_ignores_low_nibbles sim sim_transport float binary64 2%nat 1%nat 2%nat
           (ready (chip 0x10 [0x81; 2; 0x7F; 4; 0x80; 6; 0x70; 0x80; 0x90] 0 2) (repeat 0 9))
           (ready (chip 0x10 [0x81; 2; 0x7F; 4; 0x80; 6; 0x7F; 0x85; 0x9A] 0 1) (repeat 0 9))
           (repeat 0 9) (repeat 0 9)
           0x81 2 0x7F 4 0x80 6 0x70 0x80 0x90 0x7F 0x85 0x9A).
  - reflexivity.
  - reflexivity.
  - reflexivity.
  - reflexivity.
  - lia.
  - lia.
  - vm_compute. reflexivity.
  - vm_compute. reflexivity.
  - vm_compute. reflexivity.
  - vm_compute. reflexivity.
  - reflexivity.
  - reflexivity.
  - reflexivity.
Defined.

(** X9: with every buffer byte in 0..255 the three bit fields of an axis do
    not overlap, so its exact value is
    (high * 4096 + mid * 16 + low / 16 - 2^19) * 0.00625; it is negative
    exactly when the top bit of the high byte is clear, and zero exactly for
    the single code 0x80000 (high 0x80, mid 0, high nibble of low 0). *)
Theorem magnetic_exact_sign_and_zero :
  forall (D : Type) (T : Transport D) (K fuel : nat) (w : world D) (b : list Z)
         (b0 b1 b2 b3 b4 b5 b6 b7 b8 : Z),
    _buffer (self w) = Some b ->
    length b = 9%nat ->
    (K <= fuel)%nat ->
    done_at 0x21 6 K (bus w) = true ->
    read_back K (bus w) = [b0; b1; b2; b3; b4; b5; b6; b7; b8] ->
    Forall is_byte [b0; b1; b2; b3; b4; b5; b6; b7; b8] ->
    exists (x y z : Q) w',
      magnetic (R := Q) fuel w = Returns (x, y, z) w'
      /\ exact_axis_facts b0 b1 b6 x
      /\ exact_axis_facts b2 b3 b7 y
      /\ exact_axis_facts b4 b5 b8 z.
Proof.
  intros D T K fuel w b b0 b1 b2 b3 b4 b5 b6 b7 b8 Hb Hlen Hfuel Hdone Hrb Hbytes.
  destruct (magnetic_value (A := exact) K fuel w b _ _ _ _ _ _ _ _ _ Hb Hlen Hfuel Hdone Hrb)
    as [w' Hrun].
  repeat match goal with
         | H : Forall _ (_ :: _) |- _ => inversion H; clear H; subst
         end.
  eexists. eexists. eexists. exists w'.
  split; [exact Hrun|].
  split; [|split]; apply exact_axis; assumption.
Qed.

(** One axis below mid-scale, one at mid-scale, one above. *)
Lemma magnetic_exact_sign_and_zero_witness :
  exists (x y z : Q) w',
    magnetic (R := Q) 1
      (ready (chip 0x10 [0x7F; 0xFF; 0x80; 0x00; 0x80; 0x00; 0xF0; 0x0F; 0x10] 0 1)
         (repeat 0 9))
    = Returns (x, y, z) w'
    /\ exact_axis_facts 0x7F 0xFF 0xF0 x
    /\ exact_axis_facts 0x80 0x00 0x0F y
    /\ exact_axis_facts 0x80 0x00 0x10 z.
Proof.
  apply (magnetic_exact_sign_and_zero sim sim_transport 1%nat 1%nat
           (ready (chip 0x10 [0x7F; 0xFF; 0x80; 0x00; 0x80; 0x00; 0xF0; 0x0F; 0x10] 0 1)
              (repeat 0 9))
           (repeat 0 9) 0x7F 0xFF 0x80 0x00 0x80 0x00 0xF0 0x0F 0x10).
  - reflexivity.
  - reflexivity.
  - lia.
  - vm_compute. reflexivity.
  - vm_compute. reflexivity.
  - repeat constructor; unfold is_byte; lia.
Defined.

(** X10: with every buffer byte in 0..255 each binary64 axis value lies
    between the binary64 number nearest -3276.8 and 3276.7937500000003, the
    value of the top code, which is one unit in the last place above the
    binary64 number nearest 3276.79375; it is negative exactly when the top
    bit of the high byte is clear, zero exactly for the code 0x80000, and
    strictly below the value of the next code. *)
Theorem magnetic_binary64_range_and_order :
  forall (D : Type) (T : Transport D) (K fuel : nat) (w : world D) (b : list Z)
         (b0 b1 b2 b3 b4 b5 b6 b7 b8 : Z),
    _buffer (self w) = Some b ->
    length b = 9%nat ->
    (K <= fuel)%nat ->
    done_at 0x21 6 K (bus w) = true ->
    read_back K (bus w) = [b0; b1; b2; b3; b4; b5; b6; b7; b8] ->
    Forall is_byte [b0; b1; b2; b3; b4; b5; b6; b7; b8] ->
    (exists (x y z : float) w',
        magnetic (R := float) fuel w = Returns (x, y, z) w'
        /\ x = code_uT (packed b0 b1 b6)
        /\ y = code_uT (packed b2 b3 b7)
        /\ z = code_uT (packed b4 b5 b8)
        /\ binary64_axis_facts b0 b1 b6 x
        /\ binary64_axis_facts b2 b3 b7 y
        /\ binary64_axis_facts b4 b5 b8 z)
    /\ @code_uT float binary64 0 = (-3276.8)%float
    /\ @code_uT float binary64 1048575 = PrimFloat.next_up 3276.79375%float
    /\ PrimFloat.ltb 3276.79375%float (@code_uT float binary64 1048575) = true.
Proof.
  intros D T K fuel w b b0 b1 b2 b3 b4 b5 b6 b7 b8 Hb Hlen Hfuel Hdone Hrb Hbytes.
  split; [|repeat split; reflexivity].
  destruct (magnetic_value (A := binary64) K fuel w b _ _ _ _ _ _ _ _ _
              Hb Hlen Hfuel Hdone Hrb) as [w' Hrun].
  repeat match goal with
         | H : Forall _ (_ :: _) |- _ => inversion H; clear H; subst
         end.
  eexists. eexists. eexists. exists w'.
  split; [exact Hrun|].
  split; [reflexivity|]. split; [reflexivity|]. split; [reflexivity|].
  split; [|split]; apply binary64_axis; assumption.
Qed.

(** The end codes and mid-scale. *)
Lemma magnetic_binary64_range_and_order_witness :
  (exists (x y z : float) w',
      magnetic (R := float) 1
        (ready (chip 0x10 [0x00; 0x00; 0xFF; 0xFF; 0x80; 0x00; 0x00; 0xF0; 0x00] 0 1)
           (repeat 0 9))
      = Returns (x, y, z) w'
      /\ x = code_uT (packed 0x00 0x00 0x00)
      /\ y = code_uT (packed 0xFF 0xFF 0xF0)
      /\ z = code_uT (packed 0x80 0x00 0x00)
      /\ binary64_axis_facts 0x00 0x00 0x00 x
      /\ binary64_axis_facts 0xFF 0xFF 0xF0 y
      /\ binary64_axis_facts 0x80 0x00 0x00 z)
  /\ @code_uT float binary64 0 = (-3276.8)%float
  /\ @code_uT float binary64 1048575 = PrimFloat.next_up 3276.79375%float
  /\ PrimFloat.ltb 3276.79375%float (@code_uT float binary64 1048575) = true.
Proof.
  apply (magnetic_binary64_range_and_order sim sim_transport 1%nat 1%nat
           (ready (chip 0x10 [0x00; 0x00; 0xFF; 0xFF; 0x80; 0x00; 0x00; 0xF0; 0x00] 0 1)
              (repeat 0 9))
           (repeat 0 9) 0x00 0x00 0xFF 0xFF 0x80 0x00 0x00 0xF0 0x00).
  - reflexivity.
  - reflexivity.
  - lia.
  - vm_compute. reflexivity.
  - vm_compute. reflexivity.
  - repeat constructor; unfold is_byte; lia.
Defined.
